(** * The weather bot: dialogue state machine and weather workflow

    A shallow embedding of [bot.py].  The program is a Telegram bot built on
    aiogram: three handlers ([start_command], [text_message], [button_click])
    share a process-wide dictionary [user_states] and one workflow,
    [send_weather], that queries the OpenWeatherMap geocoding and weather
    endpoints and renders the answer.

    Modelling decisions:
    - the parsed JSON bodies are values of [Json]; the Python operations the
      program applies to them (subscript, [dict.get], truth value, [+], [*],
      [int], [str]) are the functions of module [Python] below, with the
      exceptions CPython raises and their texts (as of CPython 3.8, the
      interpreter of aiogram 2);
    - Python floats are binary64, here Rocq's primitive floats;
    - a handler is a function on [World]: the [user_states] dictionary and
      the list of messages handed to the chat transport, oldest first;
    - code inside the [try] block runs in the monad [Py], which threads the
      world and stops at the first exception (effects performed before the
      exception persist, as in Python);
    - the HTTP provider is a function from the request URL to a response
      (status and parsed body): every request is answered, with a body that
      parses as JSON; delivery to Telegram always succeeds. *)

From Stdlib Require Import ZArith QArith Qround Lia List String Ascii Floats DecimalString.
From stdpp Require Import gmap strings.
Import ListNotations.
Open Scope Z_scope.

(** ** Python values and exceptions *)

(** What [response.json()] can return. A [JObj] is the parsed dict as an
    association list; lookup takes the first binding of a key. *)
#[warnings="-register-all"]
Inductive Json : Type :=
| JNull
| JBool (b : bool)
| JInt (z : Z)
| JFloat (f : float)
| JStr (s : string)
| JArr (items : list Json)
| JObj (fields : list (string * Json)).

(** The exception classes the program can meet. [KeyError] carries the
    [repr] of the missing key, which is what [str] of the exception shows. *)
Inductive Exn : Type :=
| ValueError (msg : string)
| KeyError (key_repr : string)
| IndexError (msg : string)
| TypeError (msg : string)
| AttributeError (msg : string)
| OverflowError (msg : string).

(** [str(error)] *)
Definition str_exn (e : Exn) : string :=
  match e with
  | ValueError m | KeyError m | IndexError m
  | TypeError m | AttributeError m | OverflowError m => m
  end.

Inductive Result (A : Type) : Type :=
| Ok (a : A)
| Raise (e : Exn).
Arguments Ok {A} a.
Arguments Raise {A} e.

Definition rbind {A B} (r : Result A) (k : A -> Result B) : Result B :=
  match r with
  | Ok a => k a
  | Raise e => Raise e
  end.

Module Python.

Definition quote : string := String "'"%char EmptyString.
Definition dquote : string := String (ascii_of_nat 34) EmptyString.

(** [type(v).__name__] *)
Definition type_name (v : Json) : string :=
  match v with
  | JNull => "NoneType"
  | JBool _ => "bool"
  | JInt _ => "int"
  | JFloat _ => "float"
  | JStr _ => "str"
  | JArr _ => "list"
  | JObj _ => "dict"
  end.

(** [bool(v)], as used by [if not data] *)
Definition truthy (v : Json) : bool :=
  match v with
  | JNull => false
  | JBool b => b
  | JInt z => negb (z =? 0)
  | JFloat f => negb (PrimFloat.eqb f 0%float)
  | JStr s => negb (String.eqb s "")
  | JArr l => match l with [] => false | _ => true end
  | JObj l => match l with [] => false | _ => true end
  end.

Fixpoint lookup_field (k : string) (fields : list (string * Json)) : option Json :=
  match fields with
  | [] => None
  | (k', v) :: rest => if String.eqb k k' then Some v else lookup_field k rest
  end.

Definition not_subscriptable (v : Json) : Exn :=
  TypeError (quote +:+ type_name v +:+ "' object is not subscriptable").

(** [v[key]] for a string key *)
Definition getitem (v : Json) (key : string) : Result Json :=
  match v with
  | JObj fields =>
      match lookup_field key fields with
      | Some x => Ok x
      | None => Raise (KeyError (quote +:+ key +:+ quote))
      end
  | JArr _ => Raise (TypeError "list indices must be integers or slices, not str")
  | JStr _ => Raise (TypeError "string indices must be integers")
  | _ => Raise (not_subscriptable v)
  end.

(** A byte that continues a UTF-8 sequence (10xxxxxx). *)
Definition is_continuation (c : ascii) : bool :=
  let n := nat_of_ascii c in (128 <=? n)%nat && (n <? 192)%nat.

Fixpoint take_continuation (s : string) : string :=
  match s with
  | String c rest =>
      if is_continuation c then String c (take_continuation rest) else EmptyString
  | EmptyString => EmptyString
  end.

(** [v[0]] *)
Definition getitem0 (v : Json) : Result Json :=
  match v with
  | JArr (x :: _) => Ok x
  | JArr [] => Raise (IndexError "list index out of range")
  | JStr (String c rest) => Ok (JStr (String c (take_continuation rest)))
  | JStr EmptyString => Raise (IndexError "string index out of range")
  | JObj _ => Raise (KeyError "0")
  | _ => Raise (not_subscriptable v)
  end.

(** [v.get(key, default)] *)
Definition get (v : Json) (key : string) (default : Json) : Result Json :=
  match v with
  | JObj fields =>
      Ok (match lookup_field key fields with Some x => x | None => default end)
  | _ => Raise (AttributeError
                  (quote +:+ type_name v +:+ "' object has no attribute 'get'"))
  end.

(** [float(z)] for a Python int: round to nearest even, [OverflowError]
    beyond the binary64 range. *)
Definition float_of_int (z : Z) : Result float :=
  match binary_normalize prec emax z 0 false with
  | S754_infinity _ => Raise (OverflowError "int too large to convert to float")
  | sf => Ok (SF2Prim sf)
  end.

(** [int(f)]: the integer part, rounding toward zero. *)
Definition int_of_float (f : float) : Result Z :=
  match Prim2SF f with
  | S754_zero _ => Ok 0
  | S754_finite neg m e =>
      let magnitude :=
        if 0 <=? e then Z.pos m * 2 ^ e else Z.pos m / 2 ^ (- e) in
      Ok (if neg then - magnitude else magnitude)
  | S754_infinity _ =>
      Raise (OverflowError "cannot convert float infinity to integer")
  | S754_nan => Raise (ValueError "cannot convert float NaN to integer")
  end.

(** The int behind a number that is not a float ([bool] is a subclass of
    [int]). *)
Definition as_int (v : Json) : option Z :=
  match v with
  | JInt z => Some z
  | JBool b => Some (if b then 1 else 0)
  | _ => None
  end.

(** [v * x] for a float [x] *)
Definition mul_float (v : Json) (x : float) : Result float :=
  match v with
  | JFloat f => Ok (f * x)%float
  | JInt z => rbind (float_of_int z) (fun f => Ok (f * x)%float)
  | JBool b =>
      rbind (float_of_int (if b then 1 else 0)) (fun f => Ok (f * x)%float)
  | JStr _ | JArr _ =>
      Raise (TypeError "can't multiply sequence by non-int of type 'float'")
  | JNull | JObj _ =>
      Raise (TypeError ("unsupported operand type(s) for *: '" +:+ type_name v
                        +:+ "' and 'float'"))
  end.

Definition unsupported_add (a b : Json) : Exn :=
  TypeError ("unsupported operand type(s) for +: '" +:+ type_name a
             +:+ "' and '" +:+ type_name b +:+ quote).

Definition only_concatenate (a b : Json) : Exn :=
  TypeError ("can only concatenate " +:+ type_name a +:+ " (not " +:+ dquote
             +:+ type_name b +:+ dquote +:+ ") to " +:+ type_name a).

(** [a + b] *)
Definition add (a b : Json) : Result Json :=
  match a, b with
  | JStr s, JStr t => Ok (JStr (s +:+ t))
  | JArr l, JArr r => Ok (JArr (l ++ r))
  | JStr _, _ | JArr _, _ => Raise (only_concatenate a b)
  | JFloat f, JFloat g => Ok (JFloat (f + g)%float)
  | JFloat f, _ =>
      match as_int b with
      | Some z => rbind (float_of_int z) (fun g => Ok (JFloat (f + g)%float))
      | None => Raise (unsupported_add a b)
      end
  | _, JFloat g =>
      match as_int a with
      | Some z => rbind (float_of_int z) (fun f => Ok (JFloat (f + g)%float))
      | None => Raise (unsupported_add a b)
      end
  | _, _ =>
      match as_int a, as_int b with
      | Some x, Some y => Ok (JInt (x + y))
      | _, _ => Raise (unsupported_add a b)
      end
  end.

(** [str(z)] for an int *)
Definition str_int (z : Z) : string := NilZero.string_of_int (Z.to_int z).

Definition digit (n : Z) : ascii := ascii_of_nat (48 + Z.to_nat n).

(** A number below 100 on two digits, as [%H] and [%M] print it. *)
Definition two_digits (n : Z) : string :=
  String (digit (n / 10)) (String (digit (n mod 10)) EmptyString).

End Python.

(** ** The bot's state and the chat transport *)

Inductive Mode : Type := greeting | city_choice | other_city | sun_question.

(** [class BotState] *)
Record BotState : Type := mkBotState {
  mode : Mode;
  sunrise : string;
  sunset : string
}.

(** [BotState()] *)
Definition BotState_init : BotState := mkBotState greeting "" "".

Definition with_mode (m : Mode) (s : BotState) : BotState :=
  mkBotState m (sunrise s) (sunset s).
Definition with_sunrise (t : string) (s : BotState) : BotState :=
  mkBotState (mode s) t (sunset s).
Definition with_sunset (t : string) (s : BotState) : BotState :=
  mkBotState (mode s) (sunrise s) t.

(** [types.InlineKeyboardButton(text, callback_data=...)] *)
Record InlineKeyboardButton : Type := mkButton {
  button_text : string;
  callback_data : string
}.

(** [types.InlineKeyboardMarkup(row_width=...)]; aiogram's default row width
    is 3. *)
Record InlineKeyboardMarkup : Type := mkKeyboard {
  row_width : nat;
  inline_keyboard : list (list InlineKeyboardButton)
}.

Definition InlineKeyboardMarkup_new (width : nat) : InlineKeyboardMarkup :=
  mkKeyboard width [].

(** Rows of at most [width] buttons, in order. [fuel] bounds the number of
    rows; every row holds a button, so the length of the list is enough.
    The program only uses widths 2 and 3; a width of 0, on which aiogram
    divides by zero, is read as 1. *)
Fixpoint rows_of (fuel width : nat) (buttons : list InlineKeyboardButton)
  : list (list InlineKeyboardButton) :=
  match fuel, buttons with
  | S fuel', _ :: _ =>
      firstn (Nat.max 1 width) buttons
        :: rows_of fuel' width (skipn (Nat.max 1 width) buttons)
  | _, _ => []
  end.

(** [keyboard.add(b1, ..., bn)]: the buttons of one call fill new rows of
    [row_width] buttons each. *)
Definition keyboard_add (kb : InlineKeyboardMarkup)
    (buttons : list InlineKeyboardButton) : InlineKeyboardMarkup :=
  mkKeyboard (row_width kb)
    (inline_keyboard kb ++ rows_of (length buttons) (row_width kb) buttons).

Definition buttons_of (kb : InlineKeyboardMarkup) : list InlineKeyboardButton :=
  concat (inline_keyboard kb).

(** What the bot hands to Telegram: [bot.send_photo], and [bot.send_message]
    or [message.answer] with an optional keyboard. *)
Inductive Outbound : Type :=
| SendPhoto (chat_id : Z) (photo : string)
| SendMessage (chat_id : Z) (text : string)
              (reply_markup : option InlineKeyboardMarkup).

Record World : Type := mkWorld {
  user_states : gmap Z BotState;
  sent : list Outbound
}.

(** The state a handler finds for a user: the stored one, or the fresh
    [BotState()] that [get_user_state] would create. *)
Definition state_of (w : World) (user_id : Z) : BotState :=
  default BotState_init (user_states w !! user_id).

Definition mode_of (w : World) (user_id : Z) : Mode := mode (state_of w user_id).

(** ** Code that may raise *)

Definition Py (A : Type) : Type := World -> Result A * World.

Definition ret {A} (a : A) : Py A := fun w => (Ok a, w).

Definition bind {A B} (m : Py A) (k : A -> Py B) : Py B :=
  fun w =>
    match m w with
    | (Ok a, w') => k a w'
    | (Raise e, w') => (Raise e, w')
    end.

(** A computation that does not touch the world. *)
Definition lift {A} (r : Result A) : Py A := fun w => (r, w).

(** [try: body except Exception as error: handler(error)] *)
Definition try_except (body : Py unit) (handler : Exn -> Py unit) : Py unit :=
  fun w =>
    match body w with
    | (Ok tt, w') => (Ok tt, w')
    | (Raise e, w') => handler e w'
    end.

Notation "'let*' x := m 'in' k" := (bind m (fun x => k))
  (at level 10, x name, m at level 100, k at level 200).
Notation "m ;; k" := (bind m (fun _ => k))
  (at level 100, k at level 200, right associativity).

(** The world a total handler leaves behind. *)
Definition exec (m : Py unit) (w : World) : World := snd (m w).

(** [user_states[user_id]] mutated in place through the object
    [get_user_state] returned. *)
Definition update_state (user_id : Z) (f : BotState -> BotState) : Py unit :=
  fun w => (Ok tt, mkWorld (alter f user_id (user_states w)) (sent w)).

Definition emit (o : Outbound) : Py unit :=
  fun w => (Ok tt, mkWorld (user_states w) (sent w ++ [o])).

(** [get_user_state] *)
Definition get_user_state (user_id : Z) : Py BotState :=
  fun w =>
    match user_states w !! user_id with
    | Some s => (Ok s, w)
    | None =>
        (Ok BotState_init,
         mkWorld (<[user_id := BotState_init]> (user_states w)) (sent w))
    end.

(** The world once [get_user_state] has run: the user has an entry. *)
Definition touched (u : Z) (w : World) : World := snd (get_user_state u w).

(** ** Incoming events *)

(** [types.Message]: the sender ([message.from_user.id]), the chat
    ([message.chat.id]) and the text. *)
Record Message : Type := mkMessage {
  msg_from_user : Z;
  msg_chat : Z;
  msg_text : string
}.

(** [types.CallbackQuery]: who pressed the button ([call.from_user.id]), the
    payload ([call.data]) and the message the button is attached to
    ([call.message]). *)
Record CallbackQuery : Type := mkCallbackQuery {
  call_from_user : Z;
  call_data : string;
  call_message : Message
}.

(** An HTTP response: [response.status] and [await response.json()]. *)
Record Response : Type := mkResponse {
  status : Z;
  json : Json
}.

Definition newline : string := String (ascii_of_nat 10) EmptyString.

(** The first and last instants [datetime] can hold (years 1 to 9999), in
    seconds since the epoch. *)
Definition datetime_min : Z := -62135596800.
Definition datetime_max : Z := 253402300799.

(** [dt.strftime('%H:%M')] for the datetime [t] seconds after the epoch. *)
Definition strftime_HM (t : Z) : string :=
  Python.two_digits (t mod 86400 / 3600) +:+ ":"
    +:+ Python.two_digits (t mod 3600 / 60).

Definition not_found_text : string := "Город не найден".

(** ** Sample provider responses and worlds, for the worked examples *)

Definition sample_place : Json :=
  JObj [ ("name", JStr "Moscow");
         ("lat", JFloat 55.75%float);
         ("lon", JFloat 37.625%float);
         ("country", JStr "RU") ].

Definition sample_found : Response := mkResponse 200 (JArr [sample_place]).

(** A pressure with a fraction: 1001.3333333333333, the binary64 float
    nearest to 1001 1/3. *)
Definition sample_pressure : float := 0x1.f4aaaaaaaaaaap+9%float.

Definition sample_empty : Response := mkResponse 200 (JArr []).

Definition sample_weather : Response :=
  mkResponse 200
    (JObj [ ("weather", JArr [ JObj [ ("id", JInt 800);
                                      ("main", JStr "Clear");
                                      ("icon", JStr "01d") ] ]);
            ("main", JObj [ ("temp", JFloat 12.5%float);
                            ("pressure", JInt 1013);
                            ("humidity", JInt 40) ]);
            ("wind", JObj [ ("speed", JFloat 3.5%float) ]);
            ("sys", JObj [ ("sunrise", JInt 1717209000);
                           ("sunset", JInt 1717261200) ]);
            ("timezone", JInt 10800) ]).

Definition sample_no_entry : Response :=
  mkResponse 200 (JObj [ ("weather", JArr []); ("cod", JInt 200) ]).

(** Answers the provider is not expected to give: a failing weather
    endpoint, a geocoding body that is an object, and weather bodies with a
    field of the wrong type or with next to no field. *)
Definition sample_unavailable : Response := mkResponse 500 JNull.

Definition sample_geo_object : Response :=
  mkResponse 200 (JObj [ ("cod", JInt 200); ("name", JStr "Moscow") ]).

Definition sample_bad_main : Response :=
  mkResponse 200
    (JObj [ ("weather", JArr [ JObj [ ("icon", JStr "01d") ] ]);
            ("main", JStr "Clear") ]).

Definition sample_bad_sunrise : Response :=
  mkResponse 200
    (JObj [ ("weather", JArr [ JObj [ ("icon", JStr "01d") ] ]);
            ("main", JObj [ ("pressure", JInt 1013) ]);
            ("sys", JObj [ ("sunrise", JStr "dawn");
                           ("sunset", JInt 1717261200) ]);
            ("timezone", JInt 10800) ]).

Definition sample_bad_sunset : Response :=
  mkResponse 200
    (JObj [ ("weather", JArr [ JObj [ ("icon", JStr "01d") ] ]);
            ("main", JObj [ ("pressure", JInt 1013) ]);
            ("sys", JObj [ ("sunrise", JInt 1717209000);
                           ("sunset", JStr "dusk") ]);
            ("timezone", JInt 10800) ]).

Definition sample_bare : Response :=
  mkResponse 200 (JObj [ ("weather", JArr [ JObj [] ]) ]).

(** A provider that answers geocoding requests with [geo] and every other
    request with [weather]. *)
Definition sample_provider (geo weather : Response) (url : string) : Response :=
  if String.prefix "http://api.openweathermap.org/geo/" url then geo
  else weather.

Definition sample_key : option string := Some "0123456789abcdef".
Definition sample_repr (v : Json) : string := "?".
Definition sample_seconds (f : float) : Z := 0.
Definition sample_strip (text : string) : string := text.

(** User 1 talks to the bot, whose own account is user 2, in chat 1. *)
Definition choosing_world : World :=
  mkWorld {[ 1 := mkBotState city_choice "" "" ]} [].
Definition asking_world : World :=
  mkWorld {[ 1 := mkBotState sun_question "05:30" "20:00" ]} [].
Definition typing_world : World :=
  mkWorld {[ 1 := mkBotState other_city "" "" ]} [].
Definition bot_message (text : string) : Message := mkMessage 2 1 text.
Definition press (data : string) : CallbackQuery :=
  mkCallbackQuery 1 data (bot_message "🌍 Выберите город:").

Section Bot.

(** [os.environ.get("OWM_API_KEY")] *)
Variable OWM_API_KEY : option string.

(** The provider: the response to [session.get(url)]. *)
Variable http_get : string -> Response.

(** [str(v)] for the values whose text is not modelled: floats (shortest
    round-trip digits), lists and dicts. *)
Variable py_repr : Json -> string.

(** The whole seconds of the datetime [utcfromtimestamp] builds from a
    finite float (CPython rounds the timestamp to the microsecond). *)
Variable seconds_of_float : float -> Z.

(** [str.strip()] *)
Variable strip : string -> string.

(** A value inside an f-string: [format(v, '')] *)
Definition py_str (v : Json) : string :=
  match v with
  | JStr s => s
  | JInt z => Python.str_int z
  | JBool true => "True"
  | JBool false => "False"
  | JNull => "None"
  | _ => py_repr v
  end.

Definition api_key_text : string :=
  match OWM_API_KEY with
  | Some k => k
  | None => "None"
  end.

Definition geo_url (city : string) : string :=
  "http://api.openweathermap.org/geo/1.0/direct"
    +:+ "?q=" +:+ city +:+ "&limit=1&appid=" +:+ api_key_text.

(** [fetch_geo_data] *)
Definition fetch_geo_data (city : string) : Result Json :=
  let response := http_get (geo_url city) in
  if negb (status response =? 200) then
    Raise (ValueError "Ошибка получения геоданных")
  else
    let data := json response in
    if negb (Python.truthy data) then Raise (ValueError not_found_text)
    else Python.getitem0 data.

Definition weather_url (lat lon : Json) : string :=
  "https://api.openweathermap.org/data/2.5/weather"
    +:+ "?lat=" +:+ py_str lat +:+ "&lon=" +:+ py_str lon
    +:+ "&units=metric&appid=" +:+ api_key_text.

(** [fetch_weather_data] *)
Definition fetch_weather_data (lat lon : Json) : Result Json :=
  let response := http_get (weather_url lat lon) in
  if negb (status response =? 200) then
    Raise (ValueError "Ошибка получения погоды")
  else Ok (json response).

(** [weather['weather'][0].get('icon', '')] *)
Definition icon_code_of (weather : Json) : Result Json :=
  rbind (Python.getitem weather "weather") (fun entries =>
  rbind (Python.getitem0 entries) (fun first =>
  Python.get first "icon" (JStr ""))).

(** [int(main_data.get('pressure', 0) * 0.75)] for the value that
    [main_data.get('pressure', 0)] returned. *)
Definition display_pressure (hPa : Json) : Result Z :=
  rbind (Python.mul_float hPa 0.75%float) Python.int_of_float.

(** [datetime.utcfromtimestamp(v)], as seconds since the epoch. Out of the
    range of [datetime] CPython raises [ValueError], [OverflowError] or
    [OSError] depending on the distance, each with an English text; the
    model raises the first. Negative timestamps are accepted, as on POSIX. *)
Definition utcfromtimestamp (v : Json) : Result Z :=
  rbind
    match v with
    | JFloat f =>
        if PrimFloat.is_nan f then
          Raise (ValueError "Invalid value NaN (not a number)")
        else if PrimFloat.is_infinity f then
          Raise (OverflowError "cannot convert float infinity to integer")
        else Ok (seconds_of_float f)
    | _ =>
        match Python.as_int v with
        | Some t => Ok t
        | None =>
            Raise (TypeError ("an integer is required (got type "
                              +:+ Python.type_name v +:+ ")"))
        end
    end
    (fun t =>
       if (datetime_min <=? t) && (t <=? datetime_max) then Ok t
       else Raise (ValueError "year is out of range")).

(** [datetime.utcfromtimestamp(epoch + timezone).strftime('%H:%M')] *)
Definition format_time (epoch timezone : Json) : Result string :=
  rbind (Python.add epoch timezone) (fun local =>
  rbind (utcfromtimestamp local) (fun t => Ok (strftime_HM t))).

Definition weather_message (temp : Json) (pressure : Z) (wind : Json) : string :=
  "🌡 Температура: " +:+ py_str temp +:+ "°C" +:+ newline
    +:+ "📉 Давление: " +:+ Python.str_int pressure +:+ " мм рт.ст." +:+ newline
    +:+ "🌪 Ветер: " +:+ py_str wind +:+ " м/с".

Definition icon_url (icon_code : Json) : string :=
  "http://openweathermap.org/img/wn/" +:+ py_str icon_code +:+ "@4x.png".

Definition sun_keyboard : InlineKeyboardMarkup :=
  keyboard_add (InlineKeyboardMarkup_new 2)
    [ mkButton "Да ✅" "yes";
      mkButton "Нет ❌" "no";
      mkButton "🔄 Начать заново" "start" ].

Definition sun_prompt : string := "Показать время рассвета и заката?".

(** The body of the [try] block of [send_weather]. *)
Definition send_weather_try (city : string) (chat_id user_id : Z) : Py unit :=
  let* geo_data := lift (fetch_geo_data city) in
  let* lat := lift (Python.getitem geo_data "lat") in
  let* lon := lift (Python.getitem geo_data "lon") in
  let* weather := lift (fetch_weather_data lat lon) in
  let* icon_code := lift (icon_code_of weather) in
  emit (SendPhoto chat_id (icon_url icon_code)) ;;
  let* main_data := lift (Python.get weather "main" (JObj [])) in
  let* wind_data := lift (Python.get weather "wind" (JObj [])) in
  let* temp := lift (Python.get main_data "temp" (JStr "N/A")) in
  let* hPa := lift (Python.get main_data "pressure" (JInt 0)) in
  let* pressure := lift (display_pressure hPa) in
  let* wind := lift (Python.get wind_data "speed" (JStr "N/A")) in
  emit (SendMessage chat_id (weather_message temp pressure wind) None) ;;
  let* sys_data := lift (Python.get weather "sys" (JObj [])) in
  let* timezone := lift (Python.get weather "timezone" (JInt 0)) in
  get_user_state user_id ;;
  let* sunrise_epoch := lift (Python.get sys_data "sunrise" (JInt 0)) in
  let* sunrise_text := lift (format_time sunrise_epoch timezone) in
  update_state user_id (with_sunrise sunrise_text) ;;
  let* sunset_epoch := lift (Python.get sys_data "sunset" (JInt 0)) in
  let* sunset_text := lift (format_time sunset_epoch timezone) in
  update_state user_id (with_sunset sunset_text) ;;
  emit (SendMessage chat_id sun_prompt (Some sun_keyboard)) ;;
  update_state user_id (with_mode sun_question).

Definition generic_error_message : string :=
  "😢 Что-то пошло не так. Попробуйте другой город".
Definition not_found_message : string :=
  "🏙 Город не найден, попробуйте другой".

Definition retry_keyboard : InlineKeyboardMarkup :=
  keyboard_add (InlineKeyboardMarkup_new 3)
    [ mkButton "🔄 Попробовать снова" "start" ].

(** The [except Exception as error] block of [send_weather]. *)
Definition send_weather_except (chat_id : Z) (error : Exn) : Py unit :=
  let error_message :=
    if String.eqb (str_exn error) not_found_text then not_found_message
    else generic_error_message in
  emit (SendMessage chat_id error_message (Some retry_keyboard)).

(** [send_weather] *)
Definition send_weather (city : string) (chat_id user_id : Z) : Py unit :=
  try_except (send_weather_try city chat_id user_id)
             (send_weather_except chat_id).

Definition cities : list (string * string) :=
  [ ("🏙 Москва", "Moscow");
    ("🌆 Кейптаун", "Cape Town");
    ("🗽 Нью-Йорк", "New York");
    ("🌃 Шанхай", "Shanghai");
    ("✏️ Другой город", "other");
    ("🔄 Начать заново", "start") ].

Definition city_keyboard : InlineKeyboardMarkup :=
  fold_left
    (fun keyboard entry =>
       keyboard_add keyboard [ mkButton (fst entry) (snd entry) ])
    cities (InlineKeyboardMarkup_new 2).

Definition city_prompt : string := "🌍 Выберите город:".

(** [start_command] *)
Definition start_command (message : Message) : Py unit :=
  get_user_state (msg_from_user message) ;;
  update_state (msg_from_user message) (with_mode city_choice) ;;
  emit (SendMessage (msg_chat message) city_prompt (Some city_keyboard)).

(** [text_message] *)
Definition text_message (message : Message) : Py unit :=
  let* state := get_user_state (msg_from_user message) in
  match mode state with
  | other_city =>
      send_weather (strip (msg_text message)) (msg_chat message)
                   (msg_from_user message)
  | _ => ret tt
  end.

Definition new_request_keyboard : InlineKeyboardMarkup :=
  keyboard_add (InlineKeyboardMarkup_new 3)
    [ mkButton "🔄 Начать заново" "start" ].

Definition sun_message (state : BotState) : string :=
  "🌅 Рассвет: " +:+ sunrise state +:+ newline
    +:+ "🌇 Закат: " +:+ sunset state.

(** [button_click] *)
Definition button_click (call : CallbackQuery) : Py unit :=
  let user_id := call_from_user call in
  let* state := get_user_state user_id in
  if String.eqb (call_data call) "start" then
    start_command (call_message call)
  else
    match mode state with
    | city_choice =>
        if String.eqb (call_data call) "other" then
          emit (SendMessage (msg_chat (call_message call))
                            "📝 Введите название города:" None) ;;
          update_state user_id (with_mode other_city)
        else
          send_weather (call_data call) (msg_chat (call_message call)) user_id
    | sun_question =>
        (if String.eqb (call_data call) "yes" then
           emit (SendMessage (msg_chat (call_message call))
                             (sun_message state) None)
         else ret tt) ;;
        emit (SendMessage (msg_chat (call_message call))
                          "Хотите сделать новый запрос?"
                          (Some new_request_keyboard)) ;;
        update_state user_id (with_mode city_choice)
    | _ => ret tt
    end.

(** ** The spec's reading of the pressure conversion *)

(** Python's [round]: the nearest integer, ties to the even one. *)
Definition py_round (q : Q) : Z :=
  let lower := Qfloor q in
  let rest := (q - inject_Z lower)%Q in
  match (rest ?= 1 # 2)%Q with
  | Lt => lower
  | Gt => lower + 1
  | Eq => if Z.even lower then lower else lower + 1
  end.

(** The rational a finite binary64 float stands for (0 for the others),
    for the spec's [floor] of the exact product. *)
Definition exact_value (f : float) : Q :=
  match Prim2SF f with
  | S754_finite neg m e =>
      let magnitude := (inject_Z (Z.pos m) * 2 ^ e)%Q in
      if neg then (- magnitude)%Q else magnitude
  | _ => 0%Q
  end.

(** ** Views of the workflow used in the statements *)

(** The texts the [except] block sends, with a keyboard. *)
Definition is_failure_message (o : Outbound) : bool :=
  match o with
  | SendMessage _ text (Some _) =>
      String.eqb text generic_error_message || String.eqb text not_found_message
  | _ => false
  end.

(** Both requests went through and [weather] is the parsed weather body. *)
Definition fetched (city : string) (weather : Json) : Prop :=
  exists geo_data lat lon,
    fetch_geo_data city = Ok geo_data
    /\ Python.getitem geo_data "lat" = Ok lat
    /\ Python.getitem geo_data "lon" = Ok lon
    /\ fetch_weather_data lat lon = Ok weather.

(** The metrics text built from a weather body. *)
Definition metrics_of (weather : Json) : Result string :=
  rbind (Python.get weather "main" (JObj [])) (fun main_data =>
  rbind (Python.get weather "wind" (JObj [])) (fun wind_data =>
  rbind (Python.get main_data "temp" (JStr "N/A")) (fun temp =>
  rbind (Python.get main_data "pressure" (JInt 0)) (fun hPa =>
  rbind (display_pressure hPa) (fun pressure =>
  rbind (Python.get wind_data "speed" (JStr "N/A")) (fun wind =>
  Ok (weather_message temp pressure wind))))))).

(** The formatted local time of [sys.sunrise] or [sys.sunset]. *)
Definition sun_time (weather : Json) (key : string) : Result string :=
  rbind (Python.get weather "sys" (JObj [])) (fun sys_data =>
  rbind (Python.get weather "timezone" (JInt 0)) (fun timezone =>
  rbind (Python.get sys_data key (JInt 0)) (fun epoch =>
  format_time epoch timezone))).

(** [w'] is [w] after some steps of the [try] block short of its end: the
    modes are those of [w] and only renderings were sent. *)
Definition progress (w w' : World) : Prop :=
  (forall u, mode_of w' u = mode_of w u)
  /\ exists rendered,
       sent w' = sent w ++ rendered
       /\ forallb (fun o => negb (is_failure_message o)) rendered = true.

(** An exception whose text is not the one [fetch_geo_data] raises for an
    empty result. *)
Definition benign {A} (r : Result A) : Prop :=
  forall e, r = Raise e -> str_exn e <> not_found_text.

(** ** Views used for the rest of the handlers *)

(** The message goes to [chat_id]. *)
Definition addressed_to (chat_id : Z) (o : Outbound) : bool :=
  match o with
  | SendPhoto c _ | SendMessage c _ _ => c =? chat_id
  end.

(** [w'] is [w] but for the states of the users in [touchable]: every
    other user finds the same state, no stored entry is gone, and the
    messages of [w] are followed by messages to [chat_id] only. *)
Definition frame (touchable : Z -> Prop) (chat_id : Z) (w w' : World) : Prop :=
  (forall u, ~ touchable u -> state_of w' u = state_of w u)
  /\ (forall u, is_Some (user_states w !! u) -> is_Some (user_states w' !! u))
  /\ exists delta,
       sent w' = sent w ++ delta
       /\ forallb (addressed_to chat_id) delta = true.

(** The steps of the [try] block up to the icon code, before anything is
    sent. *)
Definition icon_request (city : string) : Result Json :=
  rbind (fetch_geo_data city) (fun geo_data =>
  rbind (Python.getitem geo_data "lat") (fun lat =>
  rbind (Python.getitem geo_data "lon") (fun lon =>
  rbind (fetch_weather_data lat lon) icon_code_of))).

(** The text the [except] block chooses for an exception. *)
Definition failure_text (e : Exn) : string :=
  if String.eqb (str_exn e) not_found_text then not_found_message
  else generic_error_message.

Definition failure_reply (chat_id : Z) (e : Exn) : Outbound :=
  SendMessage chat_id (failure_text e) (Some retry_keyboard).

(** ** Views used for the stored times *)

(** A text [strftime('%H:%M')] can print: hours and minutes on two digits
    each. *)
Definition is_clock (text : string) : Prop :=
  exists h m,
    0 <= h < 24 /\ 0 <= m < 60
    /\ text = Python.two_digits h +:+ ":" +:+ Python.two_digits m.

(** Every user in [sun_question] has a sunrise and a sunset to show. *)
Definition sun_times_stored (w : World) : Prop :=
  forall u, mode_of w u = sun_question ->
            is_clock (sunrise (state_of w u)) /\ is_clock (sunset (state_of w u)).

(** From [w] to [w'] a stored time is kept or replaced by a clock text. *)
Definition times_step (w w' : World) : Prop :=
  forall u,
    (sunrise (state_of w' u) = sunrise (state_of w u)
     \/ is_clock (sunrise (state_of w' u)))
    /\ (sunset (state_of w' u) = sunset (state_of w u)
        \/ is_clock (sunset (state_of w' u))).

(** The worlds the three handlers, called one after another, can reach from
    the empty store of a fresh process. *)
Inductive reachable : World -> Prop :=
| reach_init : reachable (mkWorld ∅ [])
| reach_start message w :
    reachable w -> reachable (exec (start_command message) w)
| reach_text message w :
    reachable w -> reachable (exec (text_message message) w)
| reach_click call w :
    reachable w -> reachable (exec (button_click call) w).

(** * Properties *)

(** ** Binary64 arithmetic: the product with 0.75 is exact *)

Lemma iter_pos_iter {A} (f : A -> A) (n : positive) (x : A) :
  SpecFloat.iter_pos f n x = Pos.iter f x n.
Proof.
  revert x. induction n as [n IH|n IH|]; intros x; simpl.
  - now rewrite !IH, <- !Pos.iter_swap.
  - now rewrite !IH.
  - reflexivity.
Qed.

(** Shifting out [n] zero bits loses nothing. *)
Lemma shr_exact (n : positive) :
  forall q,
    SpecFloat.iter_pos shr_1 n (Build_shr_record (Zpos (Pos.iter xO q n)) false false)
    = Build_shr_record (Zpos q) false false.
Proof.
  intros q. rewrite iter_pos_iter. revert q.
  induction n as [|n IH] using Pos.peano_ind; intros q.
  - reflexivity.
  - rewrite Pos.iter_succ, Pos.iter_succ_r, IH. reflexivity.
Qed.

Lemma shifted_value (a n : positive) :
  Zpos (Pos.iter xO a n) = Zpos a * 2 ^ Zpos n.
Proof.
  induction n as [|n IH] using Pos.peano_ind.
  - simpl. lia.
  - rewrite Pos.iter_succ, Pos2Z.inj_xO, IH, Pos2Z.inj_succ, Z.pow_succ_r by lia.
    lia.
Qed.

Lemma shifted_digits (a n : positive) :
  digits2_pos (Pos.iter xO a n) = (digits2_pos a + n)%positive.
Proof.
  induction n as [|n IH] using Pos.peano_ind.
  - simpl. now rewrite Pos.add_1_r.
  - rewrite Pos.iter_succ. simpl. now rewrite IH, Pos.add_succ_r.
Qed.

Lemma shiftl_value (a : positive) (n : N) :
  Zpos (Pos.shiftl a n) = Zpos a * 2 ^ Z.of_N n.
Proof.
  destruct n as [|n]; unfold Pos.shiftl; cbn [Z.of_N].
  - rewrite Z.pow_0_r. lia.
  - apply shifted_value.
Qed.

Lemma shiftl_digits (a : positive) (n : N) :
  Zpos (digits2_pos (Pos.shiftl a n)) = Zpos (digits2_pos a) + Z.of_N n.
Proof.
  destruct n as [|n]; unfold Pos.shiftl; cbn [Z.of_N]; [lia|].
  rewrite shifted_digits. lia.
Qed.

(** Name the powers of two, so that [lia] sees them as unknowns. *)
Ltac hide_powers :=
  repeat match goal with
         | |- context [2 ^ ?e] =>
             let X := fresh "X" in
             let E := fresh "E" in
             remember (2 ^ e) as X eqn:E; clear E
         | H : context [2 ^ ?e] |- _ =>
             let X := fresh "X" in
             let E := fresh "E" in
             remember (2 ^ e) as X eqn:E; clear E
         end.

(** A positive of [d] binary digits lies between 2^(d-1) and 2^d. *)
Lemma digits_value (q : positive) :
  2 ^ (Zpos (digits2_pos q) - 1) <= Zpos q < 2 ^ Zpos (digits2_pos q).
Proof.
  induction q as [q IH|q IH|]; simpl digits2_pos.
  - rewrite Pos2Z.inj_succ. change (Zpos q~1) with (2 * Zpos q + 1).
    replace (Z.succ (Zpos (digits2_pos q)) - 1)
      with (Z.succ (Zpos (digits2_pos q) - 1)) by lia.
    rewrite !Z.pow_succ_r by lia. hide_powers. lia.
  - rewrite Pos2Z.inj_succ. change (Zpos q~0) with (2 * Zpos q).
    replace (Z.succ (Zpos (digits2_pos q)) - 1)
      with (Z.succ (Zpos (digits2_pos q) - 1)) by lia.
    rewrite !Z.pow_succ_r by lia. hide_powers. lia.
  - simpl. lia.
Qed.

Lemma digits_small (p : positive) :
  Zpos p < 2 ^ 51 -> Zpos (digits2_pos p) <= 51.
Proof.
  intros Hp. pose proof (digits_value p) as [Hlo _].
  assert (Zpos (digits2_pos p) - 1 < 51); [|lia].
  apply (Z.pow_lt_mono_r_iff 2); lia.
Qed.

(** Three times a positive has one or two digits more. *)
Lemma digits_triple (p : positive) :
  let d := Zpos (digits2_pos p) in
  let D := Zpos (digits2_pos (3 * p)) in
  d + 1 <= D <= d + 2.
Proof.
  intros d D.
  pose proof (digits_value p) as [Hlo Hhi].
  pose proof (digits_value (3 * p)) as [Hlo3 Hhi3].
  fold d in Hlo, Hhi. fold D in Hlo3, Hhi3.
  rewrite Pos2Z.inj_mul in Hlo3, Hhi3.
  assert (Hd : 2 ^ d = 2 * 2 ^ (d - 1)).
  { rewrite <- Z.pow_succ_r by lia. f_equal. lia. }
  assert (Hd2 : 2 ^ (d + 2) = 4 * 2 ^ d).
  { rewrite Z.pow_add_r by lia. change (2 ^ 2) with 4. lia. }
  split.
  - assert (d < D); [|lia].
    apply (Z.pow_lt_mono_r_iff 2); lia.
  - assert (D - 1 < d + 2); [|lia].
    apply (Z.pow_lt_mono_r_iff 2); lia.
Qed.

(** Rounding a mantissa of 53 digits followed by [n] zero bits is exact. *)
Lemma round_exact (s : bool) (q : positive) (n : N) (e : Z) :
  digits2_pos q = 53%positive ->
  emin <= e + Z.of_N n -> e + Z.of_N n <= 971 ->
  binary_round_aux prec emax s (Zpos (Pos.shiftl q n)) e loc_Exact
  = S754_finite s q (e + Z.of_N n).
Proof.
  intros Hq Hmin Hmax.
  assert (Hdigits : Zpos (digits2_pos (Pos.shiftl q n)) = 53 + Z.of_N n).
  { destruct n as [|n]; unfold Pos.shiftl; [now rewrite Hq|].
    rewrite shifted_digits, Hq. lia. }
  unfold binary_round_aux, shr_fexp, Zdigits2.
  rewrite Hdigits.
  replace (fexp prec emax (53 + Z.of_N n + e) - e) with (Z.of_N n)
    by (unfold fexp, SpecFloat.emin, prec, emax in *; lia).
  assert (Hshr : shr (shr_record_of_loc (Zpos (Pos.shiftl q n)) loc_Exact) e
                     (Z.of_N n)
                 = (Build_shr_record (Zpos q) false false, e + Z.of_N n)).
  { destruct n as [|n]; unfold Pos.shiftl; cbn [Z.of_N shr shr_record_of_loc].
    - now rewrite Z.add_0_r.
    - now rewrite shr_exact. }
  rewrite Hshr. cbn [shr_m loc_of_shr_record round_nearest_even Zdigits2].
  rewrite Hq.
  replace (fexp prec emax (53 + (e + Z.of_N n)) - (e + Z.of_N n)) with 0
    by (unfold fexp, SpecFloat.emin, prec, emax in *; lia).
  cbn [shr shr_record_of_loc shr_m].
  replace (e + Z.of_N n <=? emax - prec) with true; [reflexivity|].
  symmetry. apply Z.leb_le. unfold emax, prec. lia.
Qed.

(** [float(z)] is exact for an int of at most 53 bits: the mantissa is the
    absolute value shifted up to 53 digits. *)
Lemma normalize_exact (s : bool) (p : positive) :
  let d := Zpos (digits2_pos p) in
  d <= 53 ->
  binary_round prec emax s p 0
  = S754_finite s (Pos.shiftl p (Z.to_N (53 - d))) (d - 53).
Proof.
  intros d Hd. unfold binary_round.
  fold d.
  replace (fexp prec emax (d + 0)) with (d - 53)
    by (unfold fexp, SpecFloat.emin, prec, emax; lia).
  unfold shl_align.
  destruct (d - 53 - 0) as [|c|c] eqn:Hc; try lia.
  - replace (Z.to_N (53 - d)) with 0%N by lia. unfold Pos.shiftl.
    assert (Hp : digits2_pos p = 53%positive) by (apply Pos2Z.inj; fold d; lia).
    pose proof (round_exact s p 0 0 Hp) as Hround.
    unfold Pos.shiftl in Hround; cbn [Z.of_N] in Hround.
    rewrite Hround by (unfold SpecFloat.emin, prec, emax; lia).
    f_equal. lia.
  - replace (Z.to_N (53 - d)) with (Npos c) by lia. unfold Pos.shiftl.
    assert (Hp : digits2_pos (Pos.iter xO p c) = 53%positive).
    { apply Pos2Z.inj. rewrite shifted_digits. fold d. lia. }
    pose proof (round_exact s (Pos.iter xO p c) 0 (d - 53) Hp) as Hround.
    unfold Pos.shiftl in Hround; cbn [Z.of_N] in Hround.
    rewrite Hround by (unfold SpecFloat.emin, prec, emax; lia).
    f_equal. lia.
Qed.

Lemma three_quarters_spec :
  Prim2SF 0.75%float = S754_finite false (Pos.shiftl 3 51) (-53).
Proof. vm_compute. reflexivity. Qed.

(** Below 2^51 in absolute value, the product of [float(z)] with 0.75 is
    three quarters of [z], without rounding. *)
Lemma mul_three_quarters_exact (s : bool) (p : positive) :
  Zpos p < 2 ^ 51 ->
  let D := Zpos (digits2_pos (3 * p)) in
  Prim2SF (SF2Prim (binary_round prec emax s p 0) * 0.75)%float
  = S754_finite s (Pos.shiftl (3 * p) (Z.to_N (53 - D))) (D - 55).
Proof.
  intros Hp D.
  pose proof (digits_small p Hp) as Hd.
  pose proof (digits_triple p) as HD. cbv zeta in HD. fold D in HD.
  set (d := Zpos (digits2_pos p)) in *.
  rewrite mul_spec, normalize_exact by (fold d; lia). fold d.
  rewrite Prim2SF_SF2Prim, three_quarters_spec.
  - unfold SF64mul. cbn [SFmul]. rewrite Bool.xorb_false_r.
    assert (Hm : (Pos.shiftl p (Z.to_N (53 - d)) * Pos.shiftl 3 51)%positive
                 = Pos.shiftl (Pos.shiftl (3 * p) (Z.to_N (53 - D)))
                     (Z.to_N (51 + D - d))).
    { apply Pos2Z.inj.
      rewrite Pos2Z.inj_mul, !shiftl_value, Pos2Z.inj_mul, !Z2N.id by lia.
      change (Z.of_N 51) with 51.
      assert (Hpow : 2 ^ (53 - D) * 2 ^ (51 + D - d) = 2 ^ (53 - d) * 2 ^ 51).
      { rewrite <- !Z.pow_add_r by lia. f_equal. lia. }
      transitivity (3 * Zpos p * (2 ^ (53 - D) * 2 ^ (51 + D - d)));
        [rewrite Hpow|]; ring. }
    rewrite Hm, round_exact.
    + f_equal. rewrite Z2N.id by lia. lia.
    + apply Pos2Z.inj. rewrite shiftl_digits, Z2N.id by lia. fold D. lia.
    + rewrite Z2N.id by lia. unfold SpecFloat.emin, prec, emax. lia.
    + rewrite Z2N.id by lia. lia.
  - cbn [valid_binary]. unfold bounded, canonical_mantissa.
    rewrite shiftl_digits, Z2N.id by lia. fold d.
    apply andb_true_intro. split.
    + apply Z.eqb_eq. unfold fexp, SpecFloat.emin, prec, emax. lia.
    + apply Z.leb_le. unfold prec, emax. lia.
Qed.

Lemma int_three_quarters (s : bool) (p : positive) :
  Zpos p < 2 ^ 51 ->
  Python.int_of_float
    (SF2Prim (binary_round prec emax s p 0) * 0.75)%float
  = Ok (if s then - (3 * Zpos p / 4) else 3 * Zpos p / 4).
Proof.
  intros Hp. unfold Python.int_of_float.
  rewrite (mul_three_quarters_exact s p Hp).
  pose proof (digits_small p Hp) as Hd.
  pose proof (digits_triple p) as HD. cbv zeta in HD.
  set (D := Zpos (digits2_pos (3 * p))) in *.
  replace (0 <=? D - 55) with false by (symmetry; apply Z.leb_gt; lia).
  assert (Hmag : Zpos (Pos.shiftl (3 * p) (Z.to_N (53 - D))) / 2 ^ (- (D - 55))
                 = 3 * Zpos p / 4); [|now rewrite Hmag].
  rewrite shiftl_value, Pos2Z.inj_mul, Z2N.id by lia.
  replace (- (D - 55)) with (2 + (53 - D)) by lia.
  rewrite Z.pow_add_r by lia.
  change (2 ^ 2) with 4.
  apply Z.div_mul_cancel_r; [lia|].
  apply Z.pow_nonzero; lia.
Qed.

(** ** Pressure conversion *)

(** [float_of_int] on a nonzero int whose conversion is finite. *)
Lemma float_of_int_finite (z : Z) (s : bool) (m : positive) (e : Z) :
  binary_normalize prec emax z 0 false = S754_finite s m e ->
  Python.float_of_int z = Ok (SF2Prim (S754_finite s m e)).
Proof. intros H. unfold Python.float_of_int. now rewrite H. Qed.

(** For every int below 2^51 in absolute value, the displayed pressure is
    three quarters of it cut toward zero. *)
Lemma display_pressure_quot (p : Z) :
  - 2 ^ 51 < p < 2 ^ 51 -> display_pressure (JInt p) = Ok (Z.quot (3 * p) 4).
Proof.
  intros Hp. destruct p as [|p|p].
  - vm_compute. reflexivity.
  - assert (Hsmall : Zpos p < 2 ^ 51) by lia.
    pose proof (int_three_quarters false p Hsmall) as Hint.
    pose proof (digits_small p Hsmall) as Hd.
    pose proof (normalize_exact false p) as Hnorm. cbv zeta in Hnorm.
    specialize (Hnorm ltac:(lia)). rewrite Hnorm in Hint.
    unfold display_pressure, Python.mul_float.
    rewrite (float_of_int_finite (Zpos p) _ _ _ Hnorm).
    cbn [rbind]. rewrite Hint. f_equal.
    symmetry. apply Z.quot_div_nonneg; lia.
  - assert (Hsmall : Zpos p < 2 ^ 51) by lia.
    pose proof (int_three_quarters true p Hsmall) as Hint.
    pose proof (digits_small p Hsmall) as Hd.
    pose proof (normalize_exact true p) as Hnorm. cbv zeta in Hnorm.
    specialize (Hnorm ltac:(lia)). rewrite Hnorm in Hint.
    unfold display_pressure, Python.mul_float.
    rewrite (float_of_int_finite (Zneg p) _ _ _ Hnorm).
    cbn [rbind]. rewrite Hint. f_equal.
    change (Z.neg p) with (- Zpos p).
    rewrite Z.mul_opp_r, Z.quot_opp_l by lia.
    f_equal. symmetry. apply Z.quot_div_nonneg; lia.
Qed.

Lemma display_pressure_int (p : Z) :
  0 <= p < 2 ^ 51 -> display_pressure (JInt p) = Ok (3 * p / 4).
Proof.
  intros Hp. rewrite display_pressure_quot by lia.
  f_equal. apply Z.quot_div_nonneg; lia.
Qed.

Lemma floor_three_quarters (p : Z) : Qfloor (inject_Z p * 0.75) = 3 * p / 4.
Proof.
  unfold Qfloor, Qmult, inject_Z; simpl.
  replace (p * 75) with (3 * p * 25) by lia.
  change (Z.pos (1 * 100)) with (4 * 25).
  apply Z.div_mul_cancel_r; lia.
Qed.

(** [int] cuts toward zero: below zero the result is not the floor. *)
Lemma display_pressure_negative : display_pressure (JInt (-1)) = Ok 0.
Proof. vm_compute. reflexivity. Qed.

(** Ints beyond the 53 bits of a binary64 mantissa are rounded before the
    product: there the displayed value can miss the floor. *)
Lemma display_pressure_beyond_mantissa :
  display_pressure (JInt (2 ^ 53 + 3)) = Ok (3 * 2 ^ 51 + 3)
  /\ 3 * (2 ^ 53 + 3) / 4 = 3 * 2 ^ 51 + 2.
Proof. split; vm_compute; reflexivity. Qed.

(** C4, as amended: for every integer pressure from 0 to below 2^51 hPa,
    where the binary64 product is exact, the displayed pressure is the
    floor of [p * 0.75], which there is its truncation toward zero (the
    integer cast drops the fraction), so 1000 hPa shows as 750 and 1013 hPa
    as 759. *)
Theorem display_pressure_is_floor (p : Z) (Hp : 0 <= p < 2 ^ 51) :
  display_pressure (JInt p) = Ok (Qfloor (inject_Z p * 0.75))
  /\ Qfloor (inject_Z p * 0.75) = Z.quot (3 * p) 4
  /\ display_pressure (JInt 1000) = Ok 750
  /\ display_pressure (JInt 1013) = Ok 759.
Proof.
  split; [|split; [|split]].
  - rewrite floor_three_quarters. now apply display_pressure_int.
  - rewrite floor_three_quarters. symmetry. apply Z.quot_div_nonneg; lia.
  - vm_compute. reflexivity.
  - vm_compute. reflexivity.
Qed.

(** C3, as amended: the displayed pressure is [p * 0.75] with its fraction
    dropped, not rounded to the nearest integer: it never exceeds the exact
    product and stays less than one below it. *)
Theorem display_pressure_drops_fraction (p : Z) (Hp : 0 <= p < 2 ^ 51) :
  exists shown : Z,
    display_pressure (JInt p) = Ok shown
    /\ (inject_Z shown <= inject_Z p * 0.75 < inject_Z shown + 1)%Q.
Proof.
  exists (Qfloor (inject_Z p * 0.75)). split.
  - rewrite floor_three_quarters. now apply display_pressure_int.
  - split.
    + apply Qfloor_le.
    + rewrite <- (inject_Z_plus _ 1). apply Qlt_floor.
Qed.

(** ** Time formatting *)

(** C7: midnight of the epoch prints as 00:00, and five and a half hours
    later as 05:30; in general the epoch seconds plus the offset print as
    the hour of the day and the minute of the hour, two digits each. *)
Theorem format_time_examples :
  format_time (JInt 0) (JInt 0) = Ok "00:00"
  /\ format_time (JInt (3600 * 5 + 1800)) (JInt 0) = Ok "05:30"
  /\ forall epoch timezone,
       datetime_min <= epoch + timezone <= datetime_max ->
       exists hour minute,
         0 <= hour < 24 /\ 0 <= minute < 60
         /\ (epoch + timezone) mod 86400 / 60 = 60 * hour + minute
         /\ format_time (JInt epoch) (JInt timezone)
            = Ok (Python.two_digits hour +:+ ":" +:+ Python.two_digits minute)
         /\ String.length
              (Python.two_digits hour +:+ ":" +:+ Python.two_digits minute)
            = 5%nat.
Proof.
  split; [reflexivity|]. split; [reflexivity|].
  intros epoch timezone Hrange.
  set (t := epoch + timezone) in *.
  exists (t mod 86400 / 3600), (t mod 3600 / 60).
  split; [Z.div_mod_to_equations; lia|].
  split; [Z.div_mod_to_equations; lia|].
  split; [Z.div_mod_to_equations; lia|].
  split; [|reflexivity].
  unfold format_time, utcfromtimestamp. cbn [Python.add Python.as_int rbind].
  fold t.
  replace ((datetime_min <=? t) && (t <=? datetime_max)) with true; [reflexivity|].
  symmetry. apply andb_true_iff. split; apply Z.leb_le; lia.
Qed.

(** ** Steps of the monad and of the store *)

Lemma bind_lift {A B} (r : Result A) (k : A -> Py B) (w : World) :
  bind (lift r) k w = match r with Ok a => k a w | Raise e => (Raise e, w) end.
Proof. unfold bind, lift. now destruct r. Qed.

Lemma bind_emit {B} (o : Outbound) (k : unit -> Py B) (w : World) :
  bind (emit o) k w = k tt (mkWorld (user_states w) (sent w ++ [o])).
Proof. reflexivity. Qed.

Lemma bind_update_state {B} (u : Z) (f : BotState -> BotState)
    (k : unit -> Py B) (w : World) :
  bind (update_state u f) k w
  = k tt (mkWorld (alter f u (user_states w)) (sent w)).
Proof. reflexivity. Qed.

Lemma bind_get_user_state {B} (u : Z) (k : BotState -> Py B) (w : World) :
  bind (get_user_state u) k w = k (state_of w u) (touched u w).
Proof.
  unfold bind, touched, get_user_state, state_of.
  now destruct (user_states w !! u).
Qed.

Lemma touched_lookup (u : Z) (w : World) :
  user_states (touched u w) !! u = Some (state_of w u).
Proof.
  unfold touched, get_user_state, state_of.
  destruct (user_states w !! u) eqn:E; simpl; [exact E|apply lookup_insert_eq].
Qed.

Lemma touched_state_of (u : Z) (w : World) (u' : Z) :
  state_of (touched u w) u' = state_of w u'.
Proof.
  unfold touched, get_user_state, state_of.
  destruct (user_states w !! u) eqn:E; simpl; [reflexivity|].
  destruct (decide (u = u')) as [->|Hne].
  - now rewrite lookup_insert_eq, E.
  - now rewrite lookup_insert_ne.
Qed.

Lemma touched_sent (u : Z) (w : World) : sent (touched u w) = sent w.
Proof.
  unfold touched, get_user_state. now destruct (user_states w !! u).
Qed.

Lemma touched_id (u : Z) (w : World) (s : BotState) :
  user_states w !! u = Some s -> touched u w = w.
Proof. unfold touched, get_user_state. now intros ->. Qed.

Lemma state_of_alter_eq (f : BotState -> BotState) (u : Z)
    (m : gmap Z BotState) (out : list Outbound) (s : BotState) :
  m !! u = Some s -> state_of (mkWorld (alter f u m) out) u = f s.
Proof. intros E. unfold state_of; simpl. now rewrite lookup_alter_eq, E. Qed.

Lemma state_of_alter_ne (f : BotState -> BotState) (u u' : Z)
    (m : gmap Z BotState) (out out' : list Outbound) :
  u <> u' -> state_of (mkWorld (alter f u m) out) u' = state_of (mkWorld m out') u'.
Proof. intros Hne. unfold state_of; simpl. now rewrite lookup_alter_ne. Qed.

(** An update that leaves the mode alone leaves every user's mode alone. *)
Lemma mode_of_alter (f : BotState -> BotState) (u : Z)
    (m : gmap Z BotState) (out out' : list Outbound) (u' : Z) :
  (forall s, mode (f s) = mode s) ->
  mode_of (mkWorld (alter f u m) out) u' = mode_of (mkWorld m out') u'.
Proof.
  intros Hf. unfold mode_of, state_of; simpl.
  destruct (decide (u = u')) as [->|Hne].
  - rewrite lookup_alter_eq. destruct (m !! u'); simpl; [apply Hf|reflexivity].
  - now rewrite lookup_alter_ne.
Qed.

Lemma mode_of_stored (w : World) (u : Z) (m : Mode) :
  mode_of w u = m -> m <> greeting ->
  user_states w !! u = Some (state_of w u).
Proof.
  unfold mode_of, state_of. destruct (user_states w !! u); simpl; [easy|].
  intros <-. easy.
Qed.

(** ** The dialogue state machine *)

Lemma city_keyboard_tokens :
  map callback_data (buttons_of city_keyboard)
  = ["Moscow"; "Cape Town"; "New York"; "Shanghai"; "other"; "start"].
Proof. reflexivity. Qed.

(** What [start_command] does for any message. *)
Lemma start_command_spec (message : Message) (w : World) :
  exists w',
    start_command message w = (Ok tt, w')
    /\ sent w' = sent w ++ [SendMessage (msg_chat message) city_prompt
                                        (Some city_keyboard)]
    /\ state_of w' (msg_from_user message)
       = with_mode city_choice (state_of w (msg_from_user message))
    /\ forall u, u <> msg_from_user message -> state_of w' u = state_of w u.
Proof.
  unfold start_command.
  rewrite bind_get_user_state, bind_update_state.
  eexists; split; [reflexivity|]. simpl. split; [|split].
  - now rewrite touched_sent.
  - apply state_of_alter_eq, touched_lookup.
  - intros u Hne.
    rewrite (state_of_alter_ne _ _ _ _ _ (sent (touched (msg_from_user message) w)))
      by congruence.
    destruct (touched (msg_from_user message) w) eqn:E. simpl.
    rewrite <- E. apply touched_state_of.
Qed.

(** A press of a "start" button: the menu goes to the chat, and the mode
    that is reset belongs to the sender of the message that carries the
    button. *)
Lemma button_click_start (call : CallbackQuery) (w : World) :
  call_data call = "start" ->
  exists w',
    button_click call w = (Ok tt, w')
    /\ sent w' = sent w ++ [SendMessage (msg_chat (call_message call))
                                        city_prompt (Some city_keyboard)]
    /\ mode_of w' (msg_from_user (call_message call)) = city_choice
    /\ forall u, u <> msg_from_user (call_message call) ->
                 state_of w' u = state_of w u.
Proof.
  intros Hdata. unfold button_click.
  rewrite bind_get_user_state, Hdata. simpl.
  destruct (start_command_spec (call_message call)
              (touched (call_from_user call) w)) as (w' & Hrun & Hsent & Hst & Hothers).
  exists w'. split; [exact Hrun|]. split; [|split].
  - now rewrite Hsent, touched_sent.
  - unfold mode_of. now rewrite Hst.
  - intros u Hne. now rewrite Hothers, touched_state_of.
Qed.

(** C9: in [city_choice] every payload other than "start" and "other" is
    handed to the weather workflow as the city name, whether or not it is
    one of the four city tokens. *)
Theorem button_click_city_choice (call : CallbackQuery) (w : World)
    (Hmode : mode_of w (call_from_user call) = city_choice)
    (Hstart : call_data call <> "start")
    (Hother : call_data call <> "other") :
  button_click call w
  = send_weather (call_data call) (msg_chat (call_message call))
                 (call_from_user call) w.
Proof.
  unfold button_click.
  rewrite bind_get_user_state.
  rewrite (touched_id _ _ _ (mode_of_stored _ _ _ Hmode ltac:(discriminate))).
  apply String.eqb_neq in Hstart, Hother. rewrite Hstart.
  unfold mode_of in Hmode. now rewrite Hmode, Hother.
Qed.

(** C8: in [sun_question], "yes" sends the stored sunrise and sunset and
    then the prompt for a new request; any other payload but "start" sends
    the prompt alone; either way the user's mode becomes [city_choice]. *)
Theorem button_click_sun_question (call : CallbackQuery) (w : World)
    (Hmode : mode_of w (call_from_user call) = sun_question)
    (Hstart : call_data call <> "start") :
  let user_id := call_from_user call in
  let chat_id := msg_chat (call_message call) in
  let stored := state_of w user_id in
  exists w',
    button_click call w = (Ok tt, w')
    /\ sent w'
       = sent w
         ++ (if String.eqb (call_data call) "yes"
             then [SendMessage chat_id (sun_message stored) None] else [])
         ++ [SendMessage chat_id "Хотите сделать новый запрос?"
                         (Some new_request_keyboard)]
    /\ sun_message stored
       = "🌅 Рассвет: " +:+ sunrise stored +:+ newline
           +:+ "🌇 Закат: " +:+ sunset stored
    /\ map callback_data (buttons_of new_request_keyboard) = ["start"]
    /\ state_of w' user_id = with_mode city_choice stored
    /\ mode_of w' user_id = city_choice.
Proof.
  intros user_id chat_id stored.
  pose proof (mode_of_stored _ _ _ Hmode ltac:(discriminate)) as Hstored.
  unfold button_click.
  rewrite bind_get_user_state, (touched_id _ _ _ Hstored).
  apply String.eqb_neq in Hstart. rewrite Hstart.
  unfold mode_of in Hmode. rewrite Hmode.
  fold user_id chat_id stored.
  destruct (String.eqb (call_data call) "yes");
    (eexists; split; [reflexivity|]; simpl;
     split; [|split; [|split; [|split]]];
     [ now rewrite <- ?app_assoc
     | reflexivity
     | reflexivity
     | now apply state_of_alter_eq
     | unfold mode_of; now erewrite state_of_alter_eq by exact Hstored ]).
Qed.

(** ** Which exceptions the workflow can meet *)

Ltac benign_by_cases :=
  intros e He Htext;
  repeat match type of He with
         | context [match ?x with _ => _ end] => destruct x; simpl in He
         end;
  try discriminate He;
  injection He as <-; discriminate Htext.

Lemma rbind_benign {A B} (r : Result A) (k : A -> Result B) :
  benign r -> (forall a, benign (k a)) -> benign (rbind r k).
Proof.
  intros Hr Hk e He. destruct r as [a|e']; simpl in He.
  - now apply (Hk a).
  - injection He as <-. now apply (Hr e').
Qed.

Lemma getitem_benign (v : Json) (key : string) : benign (Python.getitem v key).
Proof. unfold Python.getitem. benign_by_cases. Qed.

Lemma getitem0_benign (v : Json) : benign (Python.getitem0 v).
Proof. unfold Python.getitem0. benign_by_cases. Qed.

Lemma get_benign (v : Json) (key : string) (d : Json) :
  benign (Python.get v key d).
Proof. unfold Python.get. benign_by_cases. Qed.

Lemma float_of_int_benign (z : Z) : benign (Python.float_of_int z).
Proof. unfold Python.float_of_int. benign_by_cases. Qed.

Lemma int_of_float_benign (f : float) : benign (Python.int_of_float f).
Proof. unfold Python.int_of_float. benign_by_cases. Qed.

Lemma mul_float_benign (v : Json) (x : float) : benign (Python.mul_float v x).
Proof.
  destruct v; simpl; try (intros e [= <-]; discriminate);
    try (apply rbind_benign; [apply float_of_int_benign|]);
    intros; intros e [=].
Qed.

Lemma display_pressure_benign (v : Json) : benign (display_pressure v).
Proof.
  apply rbind_benign; [apply mul_float_benign|intros; apply int_of_float_benign].
Qed.

Lemma add_benign (a b : Json) : benign (Python.add a b).
Proof.
  destruct a, b; simpl;
    try (intros e [= <-]; discriminate);
    try (intros e [=]; fail);
    try (apply rbind_benign; [apply float_of_int_benign|intros; intros e [=]]).
Qed.

Lemma utcfromtimestamp_benign (v : Json) : benign (utcfromtimestamp v).
Proof.
  apply rbind_benign.
  - destruct v; simpl; try (intros e [= <-]; discriminate);
      try (intros e [=]; fail).
    destruct (is_nan f); [intros e [= <-]; discriminate|].
    destruct (is_infinity f); [intros e [= <-]; discriminate|intros e [=]].
  - intros t. destruct ((datetime_min <=? t) && (t <=? datetime_max));
      [intros e [=]|intros e [= <-]; discriminate].
Qed.

Lemma format_time_benign (epoch timezone : Json) :
  benign (format_time epoch timezone).
Proof.
  apply rbind_benign; [apply add_benign|intros local].
  apply rbind_benign; [apply utcfromtimestamp_benign|intros t e [=]].
Qed.

Lemma fetch_weather_data_benign (lat lon : Json) :
  benign (fetch_weather_data lat lon).
Proof. unfold fetch_weather_data. benign_by_cases. Qed.

Lemma icon_code_of_benign (weather : Json) : benign (icon_code_of weather).
Proof.
  apply rbind_benign; [apply getitem_benign|intros entries].
  apply rbind_benign; [apply getitem0_benign|intros first; apply get_benign].
Qed.

Create HintDb benign.
#[local] Hint Resolve getitem_benign get_benign display_pressure_benign
  format_time_benign fetch_weather_data_benign icon_code_of_benign : benign.

(** [fetch_geo_data] raises the empty-result error exactly on a response
    with status 200 and a body that Python reads as false. *)
Lemma fetch_geo_data_not_found (city : string) :
  fetch_geo_data city = Raise (ValueError not_found_text)
  <-> status (http_get (geo_url city)) = 200
      /\ Python.truthy (json (http_get (geo_url city))) = false.
Proof.
  unfold fetch_geo_data.
  destruct (status (http_get (geo_url city)) =? 200) eqn:Hstatus; simpl.
  - apply Z.eqb_eq in Hstatus.
    destruct (Python.truthy (json (http_get (geo_url city)))) eqn:Htruthy; simpl.
    + split; [|intros [_ [=]]].
      intros He. exfalso. now apply (getitem0_benign _ _ He).
    + easy.
  - apply Z.eqb_neq in Hstatus. split; [intros [=]|intros [? _]; easy].
Qed.

Lemma fetch_geo_data_raise_text (city : string) (e : Exn) :
  fetch_geo_data city = Raise e -> str_exn e = not_found_text ->
  e = ValueError not_found_text.
Proof.
  unfold fetch_geo_data.
  destruct (status (http_get (geo_url city)) =? 200); simpl.
  - destruct (Python.truthy (json (http_get (geo_url city)))); simpl.
    + intros He Htext. exfalso. now apply (getitem0_benign _ _ He).
    + now intros [= <-].
  - intros [= <-]. discriminate.
Qed.

(** ** Running the [try] block *)

Lemma progress_refl (w : World) : progress w w.
Proof.
  split; [reflexivity|]. exists []. now rewrite app_nil_r.
Qed.

Lemma progress_fields (w w' : World) :
  progress w w' -> progress w (mkWorld (user_states w') (sent w')).
Proof. now destruct w'. Qed.

Lemma progress_emit (w : World) (m : gmap Z BotState) (out : list Outbound)
    (o : Outbound) :
  is_failure_message o = false -> progress w (mkWorld m out) ->
  progress w (mkWorld m (out ++ [o])).
Proof.
  intros Ho [Hmodes (rendered & Hsent & Hplain)]. split.
  - exact Hmodes.
  - exists (rendered ++ [o]). simpl in *. split.
    + now rewrite Hsent, app_assoc.
    + rewrite forallb_app, Hplain. simpl. now rewrite Ho.
Qed.

Lemma progress_touched (w w' : World) (u : Z) :
  progress w w' -> progress w (touched u w').
Proof.
  intros [Hmodes Hsent]. split.
  - intros u'. unfold mode_of. rewrite touched_state_of. apply Hmodes.
  - now rewrite touched_sent.
Qed.

Lemma progress_alter (w : World) (m : gmap Z BotState) (out : list Outbound)
    (u : Z) (f : BotState -> BotState) :
  (forall s, mode (f s) = mode s) -> progress w (mkWorld m out) ->
  progress w (mkWorld (alter f u m) out).
Proof.
  intros Hf [Hmodes Hsent]. split.
  - intros u'. rewrite (mode_of_alter f u _ _ out u' Hf). apply Hmodes.
  - exact Hsent.
Qed.

Ltac show_progress :=
  repeat first
    [ apply progress_refl
    | apply progress_touched
    | apply progress_alter; [reflexivity|]
    | apply progress_emit; [reflexivity|]
    | apply progress_fields ].

Ltac show_benign :=
  match goal with
  | E : ?r = Raise ?e |- str_exn ?e <> not_found_text =>
      apply (fun Hb : benign r => Hb e E); auto with benign
  end.

(** One step of the block in hypothesis [H]: a pure step splits into its
    two outcomes, [on_raise] closes the failing one. *)
Ltac run_step H on_raise :=
  first
    [ rewrite bind_lift in H;
      match type of H with
      | match ?r with _ => _ end = _ =>
          let E := fresh "Estep" in
          destruct r eqn:E; [cbv beta in H|on_raise]
      end
    | rewrite bind_emit in H
    | rewrite bind_get_user_state in H
    | rewrite bind_update_state in H ].

(** If the block raises, only renderings were sent and no mode changed;
    the exception is the one [fetch_geo_data] raised, before anything was
    done, or its text is not the empty-result text. *)
Lemma send_weather_try_raise (city : string) (chat_id user_id : Z)
    (w w1 : World) (e : Exn) :
  send_weather_try city chat_id user_id w = (Raise e, w1) ->
  progress w w1
  /\ (fetch_geo_data city = Raise e /\ w1 = w \/ str_exn e <> not_found_text).
Proof.
  intros H. unfold send_weather_try in H.
  run_step H ltac:(injection H as <- <-;
                   split; [show_progress|left; split; reflexivity]).
  repeat run_step H ltac:(injection H as <- <-;
                          split; [show_progress|right; show_benign]).
  discriminate H.
Qed.

(** Replay in the goal the pure steps recorded in the context. *)
Ltac use_steps :=
  repeat match goal with
         | E : ?r = Ok _ |- context [rbind ?r _] => rewrite E; cbn [rbind]
         end.

(** If the block completes, every pure step succeeded and the world is the
    initial one after the three renderings and the three assignments. *)
Lemma send_weather_try_ok (city : string) (chat_id user_id : Z)
    (w w1 : World) :
  send_weather_try city chat_id user_id w = (Ok tt, w1) ->
  exists weather icon_code metrics sunrise_text sunset_text,
    fetched city weather
    /\ icon_code_of weather = Ok icon_code
    /\ metrics_of weather = Ok metrics
    /\ sun_time weather "sunrise" = Ok sunrise_text
    /\ sun_time weather "sunset" = Ok sunset_text
    /\ sent w1 = sent w ++ [ SendPhoto chat_id (icon_url icon_code);
                              SendMessage chat_id metrics None;
                              SendMessage chat_id sun_prompt (Some sun_keyboard) ]
    /\ state_of w1 user_id = mkBotState sun_question sunrise_text sunset_text
    /\ forall u, u <> user_id -> state_of w1 u = state_of w u.
Proof.
  intros H. unfold send_weather_try in H.
  repeat run_step H ltac:(discriminate H).
  injection H as <-.
  match goal with
  | Hw : fetch_weather_data _ _ = Ok ?weather,
    Hi : icon_code_of _ = Ok ?icon,
    Hr : format_time ?sr _ = Ok ?srt,
    Hs : format_time ?ss _ = Ok ?sst |- _ =>
      exists weather, icon; eexists; exists srt, sst
  end.
  split; [unfold fetched; eauto 10|].
  split; [assumption|].
  split; [unfold metrics_of; use_steps; reflexivity|].
  split; [unfold sun_time; use_steps; assumption|].
  split; [unfold sun_time; use_steps; assumption|].
  set (w2 := mkWorld _ (_ ++ [SendMessage chat_id (weather_message _ _ _) None])).
  cbn [sent user_states]. split; [|split].
  - rewrite touched_sent. unfold w2. cbn [sent]. now rewrite <- !app_assoc.
  - unfold state_of. cbn [user_states].
    rewrite !lookup_alter_eq, touched_lookup. reflexivity.
  - intros u Hne. unfold state_of. cbn [user_states].
    rewrite !lookup_alter_ne by congruence.
    apply (touched_state_of user_id w2 u).
Qed.

(** Replay in the goal the steps of the block recorded in the context. *)
Ltac replay_block :=
  repeat first
    [ rewrite bind_emit
    | rewrite bind_get_user_state
    | rewrite bind_update_state
    | rewrite bind_lift;
      match goal with
      | E : ?r = Ok _ |- context [match ?r with _ => _ end] => rewrite E
      end ].

(** Split the chain of pure steps in hypothesis [H] into its equations. *)
Ltac split_steps H :=
  cbn [rbind] in H;
  repeat match type of H with
         | rbind ?r _ = Ok _ =>
             let E := fresh "Estep" in
             destruct r eqn:E; [cbn [rbind] in H|discriminate H]
         end.

(** The block completes as soon as the requests and the readings of the
    body succeed: nothing else can raise. *)
Lemma send_weather_try_completes (city : string) (chat_id user_id : Z)
    (w : World) (weather icon_code : Json)
    (metrics sunrise_text sunset_text : string) :
  fetched city weather ->
  icon_code_of weather = Ok icon_code ->
  metrics_of weather = Ok metrics ->
  sun_time weather "sunrise" = Ok sunrise_text ->
  sun_time weather "sunset" = Ok sunset_text ->
  exists w1, send_weather_try city chat_id user_id w = (Ok tt, w1).
Proof.
  intros (geo_data & lat & lon & Hgeo & Hlat & Hlon & Hweather)
         Hicon Hmetrics Hsunrise Hsunset.
  unfold metrics_of in Hmetrics. unfold sun_time in Hsunrise, Hsunset.
  split_steps Hmetrics. split_steps Hsunrise. split_steps Hsunset.
  unfold send_weather_try. replay_block.
  eexists. reflexivity.
Qed.

(** ** The weather workflow *)

Lemma retry_keyboard_tokens :
  map callback_data (buttons_of retry_keyboard) = ["start"].
Proof. reflexivity. Qed.

Lemma not_found_message_differs : not_found_message <> generic_error_message.
Proof. discriminate. Qed.

(** What [send_weather] does with an exception of the [try] block. *)
Lemma send_weather_handles (city : string) (chat_id user_id : Z)
    (w w1 : World) (e : Exn) :
  send_weather_try city chat_id user_id w = (Raise e, w1) ->
  send_weather city chat_id user_id w
  = (Ok tt,
     mkWorld (user_states w1)
       (sent w1 ++ [SendMessage chat_id
                      (if String.eqb (str_exn e) not_found_text
                       then not_found_message else generic_error_message)
                      (Some retry_keyboard)])).
Proof.
  intros H. unfold send_weather, try_except. now rewrite H.
Qed.

Lemma renderings_are_not_failures (rendered : list Outbound) :
  forallb (fun o => negb (is_failure_message o)) rendered = true ->
  List.filter is_failure_message rendered = [].
Proof.
  induction rendered as [|o rest IH]; simpl; [reflexivity|].
  intros H. apply andb_true_iff in H as [Ho Hrest].
  destruct (is_failure_message o); [discriminate|]. now apply IH.
Qed.

(** C2: when a step of the weather workflow raises, whatever the exception,
    [send_weather] leaves every user's mode as it was and sends exactly one
    failure message, which carries a single button with payload "start". *)
Theorem send_weather_failure (city : string) (chat_id user_id : Z)
    (w w1 : World) (e : Exn)
    (Hfail : send_weather_try city chat_id user_id w = (Raise e, w1)) :
  exists w' rendered message,
    send_weather city chat_id user_id w = (Ok tt, w')
    /\ (forall u, mode_of w' u = mode_of w u)
    /\ sent w' = sent w ++ rendered
                   ++ [SendMessage chat_id message (Some retry_keyboard)]
    /\ (message = generic_error_message \/ message = not_found_message)
    /\ List.filter is_failure_message
         (rendered ++ [SendMessage chat_id message (Some retry_keyboard)])
       = [SendMessage chat_id message (Some retry_keyboard)]
    /\ map callback_data (buttons_of retry_keyboard) = ["start"].
Proof.
  destruct (send_weather_try_raise _ _ _ _ _ _ Hfail)
    as [[Hmodes (rendered & Hsent & Hplain)] _].
  eexists _, rendered, _. split; [exact (send_weather_handles _ _ _ _ _ _ Hfail)|].
  split; [exact Hmodes|].
  split; [cbn [sent]; now rewrite Hsent, app_assoc|].
  split; [destruct (String.eqb (str_exn e) not_found_text); auto|].
  split; [|reflexivity].
  rewrite List.filter_app, (renderings_are_not_failures _ Hplain).
  now destruct (String.eqb (str_exn e) not_found_text).
Qed.

Lemma fetched_unique (city : string) (weather weather' : Json) :
  fetched city weather -> fetched city weather' -> weather = weather'.
Proof.
  intros (g & lat & lon & Hg & Hlat & Hlon & Hw)
         (g' & lat' & lon' & Hg' & Hlat' & Hlon' & Hw').
  congruence.
Qed.

(** C5: when both requests succeed and the body can be rendered, the
    workflow sends the icon image, then the metrics text, then the yes/no
    prompt, stores the formatted sunrise and sunset in the user's state and
    sets the user's mode to [sun_question]. *)
Theorem send_weather_success (city : string) (chat_id user_id : Z)
    (w : World) (weather icon_code : Json)
    (metrics sunrise_text sunset_text : string)
    (Hfetched : fetched city weather)
    (Hicon : icon_code_of weather = Ok icon_code)
    (Hmetrics : metrics_of weather = Ok metrics)
    (Hsunrise : sun_time weather "sunrise" = Ok sunrise_text)
    (Hsunset : sun_time weather "sunset" = Ok sunset_text) :
  exists w',
    send_weather city chat_id user_id w = (Ok tt, w')
    /\ sent w' = sent w ++ [ SendPhoto chat_id (icon_url icon_code);
                              SendMessage chat_id metrics None;
                              SendMessage chat_id sun_prompt (Some sun_keyboard) ]
    /\ map callback_data (buttons_of sun_keyboard) = ["yes"; "no"; "start"]
    /\ sunrise (state_of w' user_id) = sunrise_text
    /\ sunset (state_of w' user_id) = sunset_text
    /\ mode_of w' user_id = sun_question
    /\ forall u, u <> user_id -> state_of w' u = state_of w u.
Proof.
  destruct (send_weather_try_completes city chat_id user_id w _ _ _ _ _
              Hfetched Hicon Hmetrics Hsunrise Hsunset) as [w' Hok].
  destruct (send_weather_try_ok _ _ _ _ _ Hok)
    as (weather' & icon' & metrics' & sr & ss
        & Hfetched' & Hicon' & Hmetrics' & Hsr & Hss & Hsent & Hstate & Hothers).
  pose proof (fetched_unique _ _ _ Hfetched' Hfetched) as ->.
  assert (icon' = icon_code) as -> by congruence.
  assert (metrics' = metrics) as -> by congruence.
  assert (sr = sunrise_text) as -> by congruence.
  assert (ss = sunset_text) as -> by congruence.
  exists w'.
  split; [unfold send_weather, try_except; now rewrite Hok|].
  split; [exact Hsent|].
  split; [reflexivity|].
  unfold mode_of. rewrite Hstate. now repeat split.
Qed.

(** C6: [fetch_geo_data] raises the empty-result error exactly on a
    successful response with an empty body, and the provider error on any
    other status; [send_weather] always returns; when [fetch_geo_data]
    raises, it sends one message and nothing else, the "not found" one
    exactly for the empty-result error and the generic one otherwise, and
    leaves the store alone; every other exception of the [try] block
    becomes the generic message. *)
Theorem errors_become_messages (city : string) (chat_id user_id : Z)
    (w : World) :
  let response := http_get (geo_url city) in
  (fetch_geo_data city = Raise (ValueError not_found_text)
   <-> status response = 200 /\ Python.truthy (json response) = false)
  /\ (forall results,
        status response = 200 -> json response = JArr results ->
        (fetch_geo_data city = Raise (ValueError not_found_text)
         <-> results = []))
  /\ (status response <> 200 ->
      fetch_geo_data city = Raise (ValueError "Ошибка получения геоданных"))
  /\ (exists w' delta,
        send_weather city chat_id user_id w = (Ok tt, w')
        /\ sent w' = sent w ++ delta
        /\ (fetch_geo_data city = Raise (ValueError not_found_text)
            <-> delta = [SendMessage chat_id not_found_message
                                     (Some retry_keyboard)])
        /\ (forall e,
              fetch_geo_data city = Raise e ->
              e <> ValueError not_found_text ->
              delta = [SendMessage chat_id generic_error_message
                                   (Some retry_keyboard)])
        /\ (forall e,
              fetch_geo_data city = Raise e -> user_states w' = user_states w))
  /\ (forall e w1,
        send_weather_try city chat_id user_id w = (Raise e, w1) ->
        exists message,
          send_weather city chat_id user_id w
          = (Ok tt,
             mkWorld (user_states w1)
               (sent w1 ++ [SendMessage chat_id message (Some retry_keyboard)]))
          /\ (message = not_found_message \/ message = generic_error_message)
          /\ (message = not_found_message
              <-> e = ValueError not_found_text)
          /\ (e = ValueError not_found_text
              <-> fetch_geo_data city = Raise (ValueError not_found_text)))
  /\ not_found_message <> generic_error_message.
Proof.
  intros response.
  split; [apply fetch_geo_data_not_found|].
  split.
  { intros results Hstatus Hjson.
    rewrite fetch_geo_data_not_found. fold response. rewrite Hjson.
    destruct results; simpl; split; intros; try easy. }
  split.
  { intros Hstatus. unfold fetch_geo_data. fold response.
    apply Z.eqb_neq in Hstatus. now rewrite Hstatus. }
  split.
  { destruct (fetch_geo_data city) as [geo_data|e0] eqn:Hgeo.
    - unfold send_weather, try_except.
      destruct (send_weather_try city chat_id user_id w) as [[[]|e] w1] eqn:Hrun.
      + destruct (send_weather_try_ok _ _ _ _ _ Hrun)
          as (? & ? & ? & ? & ? & _ & _ & _ & _ & _ & Hsent & _).
        eexists _, _. split; [reflexivity|]. split; [exact Hsent|].
        split; [split; intros [=]|]. split; intros e' [=].
      + destruct (send_weather_try_raise _ _ _ _ _ _ Hrun)
          as [[_ (rendered & Hsent & _)] [[Hgeo' _]|Hbenign]]; [congruence|].
        apply String.eqb_neq in Hbenign.
        exists (mkWorld (user_states w1)
                  (sent w1 ++ [SendMessage chat_id generic_error_message
                                           (Some retry_keyboard)])),
               (rendered ++ [SendMessage chat_id generic_error_message
                                         (Some retry_keyboard)]).
        split; [unfold send_weather_except; cbn; now rewrite Hbenign|].
        split; [cbn [sent]; now rewrite Hsent, app_assoc|].
        split; [split; [intros [=]|]|split; intros e' [=]].
        intros Hdelta.
        apply (app_inj_tail rendered []) in Hdelta as [_ [=]].
    - assert (Hrun : send_weather_try city chat_id user_id w = (Raise e0, w))
        by (unfold send_weather_try; now rewrite bind_lift, Hgeo).
      eexists _, _. split; [exact (send_weather_handles _ _ _ _ _ _ Hrun)|].
      cbn [sent user_states]. split; [reflexivity|].
      destruct (String.eqb (str_exn e0) not_found_text) eqn:Htext.
      + apply String.eqb_eq in Htext.
        pose proof (fetch_geo_data_raise_text _ _ Hgeo Htext) as ->.
        split; [easy|]. split; [|reflexivity].
        intros e' [= <-] He'. now elim He'.
      + apply String.eqb_neq in Htext.
        split; [split; [intros [= ->]; now elim Htext|intros [=]]|].
        split; reflexivity. }
  split; [|apply not_found_message_differs].
  intros e w1 Hrun.
  eexists. split; [exact (send_weather_handles _ _ _ _ _ _ Hrun)|].
  destruct (send_weather_try_raise _ _ _ _ _ _ Hrun) as [_ Hsource].
  destruct (String.eqb (str_exn e) not_found_text) eqn:Htext.
  - apply String.eqb_eq in Htext.
    destruct Hsource as [[Hgeo _]|Hbenign]; [|easy].
    pose proof (fetch_geo_data_raise_text _ _ Hgeo Htext) as ->.
    split; [now left|]. split; easy.
  - apply String.eqb_neq in Htext.
    split; [now right|]. split.
    + split; [intros Hm; discriminate Hm|].
      intros ->. now elim Htext.
    + split; [intros ->; now elim Htext|].
      intros Hgeo. destruct Hsource as [[Hgeo' _]|Hbenign].
      * congruence.
      * exfalso. unfold send_weather_try in Hrun.
        rewrite bind_lift, Hgeo in Hrun. injection Hrun as <- _.
        now apply Hbenign.
Qed.

Lemma fetch_weather_data_ok (lat lon body : Json) :
  http_get (weather_url lat lon) = mkResponse 200 body ->
  fetch_weather_data lat lon = Ok body.
Proof. intros H. unfold fetch_weather_data. now rewrite H. Qed.

(** C10: a weather body without a "weather" key, or with an empty array
    under it, ends in the generic failure message with its single "start"
    button, nothing else is sent and no state changes; the icon code is
    read only from a first entry that exists, and is the empty string only
    when that entry has no "icon". *)
Theorem missing_weather_entry_fails (city : string) (chat_id user_id : Z)
    (w : World) (geo_data lat lon : Json) (fields : list (string * Json))
    (Hgeo : fetch_geo_data city = Ok geo_data)
    (Hlat : Python.getitem geo_data "lat" = Ok lat)
    (Hlon : Python.getitem geo_data "lon" = Ok lon)
    (Hresponse : http_get (weather_url lat lon) = mkResponse 200 (JObj fields))
    (Hmissing : Python.lookup_field "weather" fields = None
                \/ Python.lookup_field "weather" fields = Some (JArr [])) :
  send_weather city chat_id user_id w
  = (Ok tt,
     mkWorld (user_states w)
       (sent w ++ [SendMessage chat_id generic_error_message
                               (Some retry_keyboard)]))
  /\ map callback_data (buttons_of retry_keyboard) = ["start"]
  /\ (forall weather icon_code,
        icon_code_of weather = Ok icon_code ->
        exists body first rest,
          weather = JObj body
          /\ Python.lookup_field "weather" body = Some (JArr (JObj first :: rest))
          /\ icon_code = default (JStr "") (Python.lookup_field "icon" first)).
Proof.
  split; [|split; [reflexivity|]].
  - assert (Hicon : exists e, icon_code_of (JObj fields) = Raise e
                              /\ String.eqb (str_exn e) not_found_text = false).
    { unfold icon_code_of. simpl.
      destruct Hmissing as [-> | ->]; simpl; eexists; split; reflexivity. }
    destruct Hicon as (e & Hicon & Htext).
    assert (Hrun : send_weather_try city chat_id user_id w = (Raise e, w)).
    { unfold send_weather_try.
      rewrite bind_lift, Hgeo, bind_lift, Hlat, bind_lift, Hlon.
      rewrite bind_lift, (fetch_weather_data_ok _ _ _ Hresponse).
      now rewrite bind_lift, Hicon. }
    now rewrite (send_weather_handles _ _ _ _ _ _ Hrun), Htext.
  - intros weather icon_code. unfold icon_code_of, Python.getitem.
    destruct weather as [| | | | | |body]; try discriminate.
    destruct (Python.lookup_field "weather" body) as [entries|] eqn:Hentries;
      [|discriminate].
    simpl.
    destruct entries as [| | | |text|[|first rest]|]; try discriminate.
    + destruct text; discriminate.
    + destruct first as [| | | | | |entry]; try discriminate.
      simpl. intros [= <-]. exists body, entry, rest.
      split; [reflexivity|]. split; [assumption|].
      now destruct (Python.lookup_field "icon" entry).
Qed.

(** * The rest of the handlers *)

(** ** What a handler leaves alone *)

Lemma frame_refl (P : Z -> Prop) (c : Z) (w : World) : frame P c w w.
Proof.
  split; [reflexivity|]. split; [easy|]. exists []. now rewrite app_nil_r.
Qed.

Lemma frame_fields (P : Z -> Prop) (c : Z) (w w' : World) :
  frame P c w w' -> frame P c w (mkWorld (user_states w') (sent w')).
Proof. now destruct w'. Qed.

Lemma frame_emit (P : Z -> Prop) (c : Z) (w : World) (m : gmap Z BotState)
    (out : list Outbound) (o : Outbound) :
  addressed_to c o = true -> frame P c w (mkWorld m out) ->
  frame P c w (mkWorld m (out ++ [o])).
Proof.
  intros Ho (Hstates & Hkept & delta & Hsent & Hchat).
  split; [exact Hstates|]. split; [exact Hkept|].
  exists (delta ++ [o]). simpl in *. split.
  - now rewrite Hsent, app_assoc.
  - rewrite forallb_app, Hchat. simpl. now rewrite Ho.
Qed.

Lemma frame_touched (P : Z -> Prop) (c : Z) (w w' : World) (u : Z) :
  frame P c w w' -> frame P c w (touched u w').
Proof.
  intros (Hstates & Hkept & Hsent). split; [|split].
  - intros u' Hu'. rewrite touched_state_of. now apply Hstates.
  - intros u' Hu'. apply Hkept in Hu'.
    unfold touched, get_user_state.
    destruct (user_states w' !! u) eqn:E; simpl; [exact Hu'|].
    apply lookup_insert_is_Some'. now right.
  - now rewrite touched_sent.
Qed.

Lemma frame_alter (P : Z -> Prop) (c : Z) (w : World) (m : gmap Z BotState)
    (out : list Outbound) (u : Z) (f : BotState -> BotState) :
  P u -> frame P c w (mkWorld m out) ->
  frame P c w (mkWorld (alter f u m) out).
Proof.
  intros Hu (Hstates & Hkept & Hsent). split; [|split].
  - intros u' Hu'.
    rewrite (state_of_alter_ne f u u' m out out) by (intros ->; now apply Hu').
    now apply Hstates.
  - intros u' Hu'. simpl. apply lookup_alter_is_Some. now apply Hkept.
  - exact Hsent.
Qed.

Lemma frame_weaken (P Q : Z -> Prop) (c : Z) (w w' : World) :
  (forall u, P u -> Q u) -> frame P c w w' -> frame Q c w w'.
Proof.
  intros HPQ (Hstates & Hkept & Hsent). split; [|split]; try assumption.
  intros u Hu. apply Hstates. intros HP. now apply Hu, HPQ.
Qed.

Lemma frame_trans (P : Z -> Prop) (c : Z) (w w1 w2 : World) :
  frame P c w w1 -> frame P c w1 w2 -> frame P c w w2.
Proof.
  intros (Hs1 & Hk1 & d1 & Hsent1 & Hc1) (Hs2 & Hk2 & d2 & Hsent2 & Hc2).
  split; [|split].
  - intros u Hu. now rewrite Hs2, Hs1.
  - intros u Hu. now apply Hk2, Hk1.
  - exists (d1 ++ d2). split.
    + now rewrite Hsent2, Hsent1, app_assoc.
    + now rewrite forallb_app, Hc1, Hc2.
Qed.

Ltac show_frame :=
  repeat lazymatch goal with
         | |- frame _ _ ?w ?w => apply frame_refl
         | |- frame _ _ _ (touched _ _) => apply frame_touched
         | |- frame _ _ _ (mkWorld (alter _ _ _) _) =>
             apply frame_alter; [auto; fail|]
         | |- frame _ _ _ (mkWorld _ (_ ++ [_])) =>
             apply frame_emit; [apply Z.eqb_refl|]
         | |- frame _ _ _ (mkWorld (user_states ?x) (sent ?x)) =>
             apply frame_fields
         end.

(** Whatever the outcome of the [try] block, only the state of [user_id]
    can differ and only messages to [chat_id] are added. *)
Lemma send_weather_try_frame (city : string) (chat_id user_id : Z)
    (w w1 : World) (r : Result unit) :
  send_weather_try city chat_id user_id w = (r, w1) ->
  frame (eq user_id) chat_id w w1.
Proof.
  intros H. unfold send_weather_try in H.
  repeat run_step H ltac:(injection H as <- <-; show_frame).
  injection H as <- <-. show_frame.
Qed.

Lemma send_weather_total (city : string) (chat_id user_id : Z) (w : World) :
  exists w',
    send_weather city chat_id user_id w = (Ok tt, w')
    /\ frame (eq user_id) chat_id w w'.
Proof.
  unfold send_weather, try_except.
  destruct (send_weather_try city chat_id user_id w) as [[[]|e] w1] eqn:Hrun;
    pose proof (send_weather_try_frame _ _ _ _ _ _ Hrun) as Hframe.
  - now exists w1.
  - eexists. split; [reflexivity|].
    apply frame_emit; [apply Z.eqb_refl|]. now apply frame_fields.
Qed.

(** ** The store *)

(** X1: [get_user_state] returns the stored state, or stores and returns a
    fresh [BotState()] for an unknown user; a second call finds that same
    state and changes nothing; no other entry and no message is touched. *)
Theorem get_user_state_stable (u : Z) (w : World) :
  exists s w1,
    get_user_state u w = (Ok s, w1)
    /\ s = state_of w u
    /\ (user_states w !! u = None -> s = BotState_init)
    /\ user_states w1 !! u = Some s
    /\ get_user_state u w1 = (Ok s, w1)
    /\ (forall u', u' <> u -> user_states w1 !! u' = user_states w !! u')
    /\ sent w1 = sent w.
Proof.
  unfold get_user_state at 1, state_of.
  destruct (user_states w !! u) as [s|] eqn:E; simpl.
  - exists s, w. repeat split; try easy.
    unfold get_user_state. now rewrite E.
  - eexists _, _. split; [reflexivity|]. simpl.
    repeat split; try easy.
    + apply lookup_insert_eq.
    + unfold get_user_state. simpl. now rewrite lookup_insert_eq.
    + intros u' Hu'. now apply lookup_insert_ne.
Qed.

(** ** [start_command] *)

(** X2: for any message, [start_command] sends the city menu to the chat of
    the message, puts the sender in [city_choice] keeping the stored sunrise
    and sunset, and leaves every other user's state alone; run again, it
    sends the menu again and changes no state. *)
Theorem start_command_resets (message : Message) (w : World) :
  let sender := msg_from_user message in
  let menu := SendMessage (msg_chat message) city_prompt (Some city_keyboard) in
  exists w1 w2,
    start_command message w = (Ok tt, w1)
    /\ start_command message w1 = (Ok tt, w2)
    /\ sent w1 = sent w ++ [menu]
    /\ sent w2 = sent w ++ [menu; menu]
    /\ state_of w1 sender
       = mkBotState city_choice (sunrise (state_of w sender))
                    (sunset (state_of w sender))
    /\ (forall u, u <> sender -> state_of w1 u = state_of w u)
    /\ (forall u, state_of w2 u = state_of w1 u).
Proof.
  intros sender menu.
  destruct (start_command_spec message w) as (w1 & Hrun1 & Hsent1 & Hst1 & Hoth1).
  destruct (start_command_spec message w1) as (w2 & Hrun2 & Hsent2 & Hst2 & Hoth2).
  exists w1, w2. fold sender menu in Hsent1, Hsent2, Hst1, Hst2, Hoth1, Hoth2.
  repeat (split; [assumption|]).
  split; [now rewrite Hsent2, Hsent1, <- app_assoc|].
  split; [exact Hst1|]. split; [exact Hoth1|].
  intros u. destruct (decide (u = sender)) as [->|Hne].
  - rewrite Hst2, Hst1. reflexivity.
  - now apply Hoth2.
Qed.

(** ** [send_weather] as a whole *)

(** X3: [send_weather] always returns, sends at least one message and only
    to [chat_id], leaves the state of every other user alone, removes no
    entry, and leaves the user's mode as it was or sets it to
    [sun_question]. *)
Theorem send_weather_touches_one_user (city : string) (chat_id user_id : Z)
    (w : World) :
  exists w' delta,
    send_weather city chat_id user_id w = (Ok tt, w')
    /\ sent w' = sent w ++ delta
    /\ delta <> []
    /\ forallb (addressed_to chat_id) delta = true
    /\ (forall u, u <> user_id -> state_of w' u = state_of w u)
    /\ (forall u, is_Some (user_states w !! u) -> is_Some (user_states w' !! u))
    /\ (mode_of w' user_id = mode_of w user_id
        \/ mode_of w' user_id = sun_question).
Proof.
  destruct (send_weather_total city chat_id user_id w)
    as (w' & Hrun & Hstates & Hkept & delta & Hsent & Hchat).
  exists w', delta. split; [exact Hrun|]. split; [exact Hsent|].
  assert (Hothers : forall u, u <> user_id -> state_of w' u = state_of w u).
  { intros u Hu. apply Hstates. congruence. }
  unfold send_weather, try_except in Hrun.
  destruct (send_weather_try city chat_id user_id w) as [[[]|e] w1] eqn:Htry.
  - injection Hrun as ->.
    destruct (send_weather_try_ok _ _ _ _ _ Htry)
      as (? & ? & ? & ? & ? & _ & _ & _ & _ & _ & Hsent3 & Hstate & _).
    split.
    { intros ->. rewrite app_nil_r in Hsent. rewrite Hsent in Hsent3.
      apply (f_equal (@List.length Outbound)) in Hsent3.
      rewrite length_app in Hsent3. simpl in Hsent3. lia. }
    repeat (split; [assumption|]).
    right. unfold mode_of. now rewrite Hstate.
  - injection Hrun as <-.
    destruct (send_weather_try_raise _ _ _ _ _ _ Htry) as [[Hmodes _] _].
    split.
    { intros ->. rewrite app_nil_r in Hsent. simpl in Hsent.
      destruct (send_weather_try_frame _ _ _ _ _ _ Htry)
        as (_ & _ & d & Hd & _).
      rewrite Hd in Hsent.
      apply (f_equal (@List.length Outbound)) in Hsent.
      rewrite !length_app in Hsent. simpl in Hsent. lia. }
    repeat (split; [assumption|]).
    left. apply Hmodes.
Qed.

(** ** [text_message] *)

(** X4: a text message from a user who is not in [other_city] is ignored:
    nothing is sent and every user finds the same state as before. *)
Theorem text_message_ignored (message : Message) (w : World)
    (Hmode : mode_of w (msg_from_user message) <> other_city) :
  exists w',
    text_message message w = (Ok tt, w')
    /\ sent w' = sent w
    /\ forall u, state_of w' u = state_of w u.
Proof.
  exists (touched (msg_from_user message) w).
  unfold text_message. rewrite bind_get_user_state.
  split.
  - unfold mode_of in Hmode.
    now destruct (mode (state_of w (msg_from_user message))).
  - split; [apply touched_sent|intros u; apply touched_state_of].
Qed.

(** X5: a text message from a user in [other_city] runs the weather
    workflow on the stripped text; afterwards the user is still in
    [other_city] (the workflow failed) or in [sun_question], and nobody
    else's state changed. *)
Theorem text_message_other_city (message : Message) (w : World)
    (Hmode : mode_of w (msg_from_user message) = other_city) :
  let sender := msg_from_user message in
  text_message message w
  = send_weather (strip (msg_text message)) (msg_chat message) sender w
  /\ exists w',
       text_message message w = (Ok tt, w')
       /\ (mode_of w' sender = other_city \/ mode_of w' sender = sun_question)
       /\ forall u, u <> sender -> state_of w' u = state_of w u.
Proof.
  intros sender.
  assert (Hrun : text_message message w
                 = send_weather (strip (msg_text message)) (msg_chat message)
                     sender w).
  { unfold text_message. rewrite bind_get_user_state.
    rewrite (touched_id _ _ _ (mode_of_stored _ _ _ Hmode ltac:(discriminate))).
    unfold mode_of in Hmode. now rewrite Hmode. }
  split; [exact Hrun|]. rewrite Hrun.
  destruct (send_weather_total (strip (msg_text message)) (msg_chat message)
              sender w) as (w' & Hsw & Hstates & _).
  exists w'. split; [exact Hsw|]. split.
  - unfold send_weather, try_except in Hsw.
    destruct (send_weather_try (strip (msg_text message)) (msg_chat message)
                sender w) as [[[]|e] w1] eqn:Htry.
    + injection Hsw as ->.
      destruct (send_weather_try_ok _ _ _ _ _ Htry)
        as (? & ? & ? & ? & ? & _ & _ & _ & _ & _ & _ & Hstate & _).
      right. unfold mode_of. now rewrite Hstate.
    + injection Hsw as <-.
      destruct (send_weather_try_raise _ _ _ _ _ _ Htry) as [[Hmodes _] _].
      left. unfold mode_of in *. cbn [user_states]. 
      specialize (Hmodes sender). unfold state_of in *. cbn [user_states].
      now rewrite Hmodes.
  - intros u Hu. apply Hstates. congruence.
Qed.

(** ** The other branches of [button_click] *)

(** The world after the "other" button in [city_choice]. *)
Lemma button_click_other_run (call : CallbackQuery) (w : World) :
  mode_of w (call_from_user call) = city_choice ->
  call_data call = "other" ->
  button_click call w
  = (Ok tt,
     mkWorld (alter (with_mode other_city) (call_from_user call) (user_states w))
       (sent w ++ [SendMessage (msg_chat (call_message call))
                               "📝 Введите название города:" None])).
Proof.
  intros Hmode Hdata. unfold button_click.
  rewrite bind_get_user_state.
  rewrite (touched_id _ _ _ (mode_of_stored _ _ _ Hmode ltac:(discriminate))).
  unfold mode_of in Hmode. rewrite Hdata, Hmode. reflexivity.
Qed.

(** X6: in [city_choice] the "other" button sends the prompt for a city
    name, without a keyboard, and puts the presser in [other_city]; the
    stored sunrise and sunset and every other user's state stay. *)
Theorem button_click_other (call : CallbackQuery) (w : World)
    (Hmode : mode_of w (call_from_user call) = city_choice)
    (Hdata : call_data call = "other") :
  let presser := call_from_user call in
  exists w',
    button_click call w = (Ok tt, w')
    /\ sent w' = sent w ++ [SendMessage (msg_chat (call_message call))
                                        "📝 Введите название города:" None]
    /\ state_of w' presser
       = mkBotState other_city (sunrise (state_of w presser))
                    (sunset (state_of w presser))
    /\ forall u, u <> presser -> state_of w' u = state_of w u.
Proof.
  intros presser. eexists.
  split; [exact (button_click_other_run call w Hmode Hdata)|].
  cbn [sent]. split; [reflexivity|]. split.
  - now rewrite (state_of_alter_eq _ _ _ _ _
                   (mode_of_stored _ _ _ Hmode ltac:(discriminate))).
  - intros u Hu. destruct w as [m out].
    apply (state_of_alter_ne _ presser u m _ out). congruence.
Qed.

(** X7: in [greeting] and in [other_city] a button other than "start" does
    nothing: no message is sent and every user finds the same state. *)
Theorem button_click_ignored (call : CallbackQuery) (w : World)
    (Hdata : call_data call <> "start")
    (Hmode : mode_of w (call_from_user call) = greeting
             \/ mode_of w (call_from_user call) = other_city) :
  exists w',
    button_click call w = (Ok tt, w')
    /\ sent w' = sent w
    /\ forall u, state_of w' u = state_of w u.
Proof.
  exists (touched (call_from_user call) w).
  unfold button_click. rewrite bind_get_user_state.
  apply String.eqb_neq in Hdata. rewrite Hdata.
  split.
  - unfold mode_of in Hmode. now destruct Hmode as [-> | ->].
  - split; [apply touched_sent|intros u; apply touched_state_of].
Qed.

(** The frame of [button_click], from the world in which the presser has
    an entry: the presser's state can change, and on "start" the state of
    the author of the message. *)
Lemma button_click_frame (call : CallbackQuery) (w : World) :
  let presser := call_from_user call in
  let author := msg_from_user (call_message call) in
  let chat_id := msg_chat (call_message call) in
  exists w',
    button_click call w = (Ok tt, w')
    /\ frame (fun u => presser = u \/ author = u) chat_id (touched presser w) w'
    /\ (call_data call <> "start" ->
        frame (eq presser) chat_id (touched presser w) w').
Proof.
  intros presser author chat_id. unfold button_click.
  rewrite bind_get_user_state. fold presser author chat_id.
  destruct (String.eqb (call_data call) "start") eqn:Hstart.
  - apply String.eqb_eq in Hstart.
    unfold start_command. rewrite bind_get_user_state, bind_update_state.
    fold author chat_id.
    eexists. split; [reflexivity|]. split; [show_frame|congruence].
  - assert (Hcases : exists w',
              match mode (state_of w presser) with
              | city_choice =>
                  if String.eqb (call_data call) "other" then
                    emit (SendMessage chat_id "📝 Введите название города:" None) ;;
                    update_state presser (with_mode other_city)
                  else send_weather (call_data call) chat_id presser
              | sun_question =>
                  (if String.eqb (call_data call) "yes" then
                     emit (SendMessage chat_id
                             (sun_message (state_of w presser)) None)
                   else ret tt) ;;
                  emit (SendMessage chat_id "Хотите сделать новый запрос?"
                                    (Some new_request_keyboard)) ;;
                  update_state presser (with_mode city_choice)
              | _ => ret tt
              end (touched presser w) = (Ok tt, w')
              /\ frame (eq presser) chat_id (touched presser w) w').
    { destruct (mode (state_of w presser)).
      - eexists. split; [reflexivity|show_frame].
      - destruct (String.eqb (call_data call) "other").
        + eexists. split; [reflexivity|]. cbn [user_states sent]. show_frame.
        + apply send_weather_total.
      - eexists. split; [reflexivity|show_frame].
      - destruct (String.eqb (call_data call) "yes");
          (eexists; split; [reflexivity|]; cbn [user_states sent]; show_frame). }
    destruct Hcases as (w' & Hrun & Hframe).
    exists w'. split; [exact Hrun|]. split; [|intros _; exact Hframe].
    eapply frame_weaken; [|exact Hframe]. intros u ->. now left.
Qed.

(** X8: [button_click] always returns and only sends to the chat of the
    message that carries the button; it changes the state of no user but
    the presser and, on "start", the author of that message; it removes no
    entry, and the presser has one afterwards. *)
Theorem button_click_touches_two_users (call : CallbackQuery) (w : World) :
  let presser := call_from_user call in
  let author := msg_from_user (call_message call) in
  let chat_id := msg_chat (call_message call) in
  exists w' delta,
    button_click call w = (Ok tt, w')
    /\ sent w' = sent w ++ delta
    /\ forallb (addressed_to chat_id) delta = true
    /\ (forall u, u <> presser -> u <> author -> state_of w' u = state_of w u)
    /\ (call_data call <> "start" ->
        forall u, u <> presser -> state_of w' u = state_of w u)
    /\ (forall u, is_Some (user_states w !! u) -> is_Some (user_states w' !! u))
    /\ is_Some (user_states w' !! presser).
Proof.
  intros presser author chat_id.
  destruct (button_click_frame call w) as (w' & Hrun & Hframe & Hpresser).
  fold presser author chat_id in Hframe, Hpresser.
  assert (Hentry : is_Some (user_states w' !! presser)).
  { destruct Hframe as (_ & Hkept & _). apply Hkept.
    rewrite touched_lookup. eauto. }
  assert (Hstart : forall P, frame P chat_id w (touched presser w))
    by (intros P; show_frame).
  pose proof (frame_trans _ _ _ _ _ (Hstart _) Hframe)
    as (Hstates & Hkept & delta & Hsent & Hchat).
  exists w', delta. repeat (split; [assumption|]).
  split; [|split; [|split]].
  - intros u Hp Ha. apply Hstates. intros [?|?]; congruence.
  - intros Hdata u Hu.
    destruct (frame_trans _ _ _ _ _ (Hstart _) (Hpresser Hdata)) as (Hstates' & _).
    apply Hstates'. congruence.
  - exact Hkept.
  - exact Hentry.
Qed.

(** ** Where the weather workflow fails *)

Lemma metrics_of_benign (weather : Json) : benign (metrics_of weather).
Proof.
  unfold metrics_of.
  do 6 (apply rbind_benign; [auto with benign|intros ?]).
  intros e [=].
Qed.

Lemma sun_time_benign (weather : Json) (key : string) :
  benign (sun_time weather key).
Proof.
  unfold sun_time.
  do 3 (apply rbind_benign; [auto with benign|intros ?]).
  apply format_time_benign.
Qed.

Lemma benign_failure_text {A} (r : Result A) (e : Exn) :
  benign r -> r = Raise e -> failure_text e = generic_error_message.
Proof.
  intros Hr He. unfold failure_text.
  destruct (String.eqb (str_exn e) not_found_text) eqn:Htext; [|reflexivity].
  apply String.eqb_eq in Htext. now apply Hr in He.
Qed.

(** Replay the block in the goal up to the step that raises. *)
Ltac replay_raise :=
  replay_block;
  rewrite bind_lift;
  match goal with
  | E : ?r = Raise _ |- context [match ?r with _ => _ end] => rewrite E
  end.

(** Split the chain of pure steps in [H], which raises, at the step that
    does; [tac] is run on every case. *)
Ltac split_raise H tac :=
  cbn [rbind] in H;
  repeat match type of H with
         | rbind ?r _ = Raise _ =>
             let E := fresh "Estep" in
             destruct r eqn:E; cbn [rbind] in H;
             [|injection H as ->; tac]
         end;
  first [discriminate H|tac].

(** A failure before the icon is read stops the block in the world it
    started from. *)
Lemma icon_request_raise (city : string) (chat_id user_id : Z) (w : World)
    (e : Exn) :
  icon_request city = Raise e ->
  send_weather_try city chat_id user_id w = (Raise e, w).
Proof.
  intros H. unfold icon_request in H.
  split_raise H ltac:(unfold send_weather_try; replay_raise; reflexivity).
Qed.

(** X9: when a request or the reading of the icon code raises, nothing was
    sent yet: [send_weather] sends the failure message alone and leaves the
    store as it is, without even an entry for a new user. *)
Theorem early_failure_sends_only_the_reply (city : string)
    (chat_id user_id : Z) (w : World) (e : Exn)
    (Hfail : icon_request city = Raise e) :
  send_weather city chat_id user_id w
  = (Ok tt, mkWorld (user_states w) (sent w ++ [failure_reply chat_id e])).
Proof.
  exact (send_weather_handles _ _ _ _ _ _
           (icon_request_raise city chat_id user_id w e Hfail)).
Qed.

(** X10: when the weather endpoint answers the coordinates of the city with
    a status other than 200, the body is not read and [send_weather] sends
    the generic failure message alone. *)
Theorem weather_status_failure (city : string) (chat_id user_id : Z)
    (w : World) (geo_data lat lon : Json)
    (Hgeo : fetch_geo_data city = Ok geo_data)
    (Hlat : Python.getitem geo_data "lat" = Ok lat)
    (Hlon : Python.getitem geo_data "lon" = Ok lon)
    (Hstatus : status (http_get (weather_url lat lon)) <> 200) :
  fetch_weather_data lat lon = Raise (ValueError "Ошибка получения погоды")
  /\ send_weather city chat_id user_id w
     = (Ok tt,
        mkWorld (user_states w)
          (sent w ++ [SendMessage chat_id generic_error_message
                                  (Some retry_keyboard)])).
Proof.
  assert (Hweather : fetch_weather_data lat lon
                     = Raise (ValueError "Ошибка получения погоды")).
  { unfold fetch_weather_data. apply Z.eqb_neq in Hstatus. now rewrite Hstatus. }
  split; [exact Hweather|].
  apply (send_weather_handles _ _ _ _ _ (ValueError "Ошибка получения погоды")).
  apply icon_request_raise. unfold icon_request.
  now rewrite Hgeo; cbn [rbind]; rewrite Hlat; cbn [rbind]; rewrite Hlon;
    cbn [rbind]; rewrite Hweather.
Qed.

(** X11: a geocoding answer with status 200 whose body is a non-empty JSON
    object, not an array, is neither a match nor "not found": [data[0]]
    raises [KeyError] and the generic failure message is sent alone. *)
Theorem geocode_object_body (city : string) (chat_id user_id : Z) (w : World)
    (field : string * Json) (fields : list (string * Json))
    (Hstatus : status (http_get (geo_url city)) = 200)
    (Hbody : json (http_get (geo_url city)) = JObj (field :: fields)) :
  fetch_geo_data city = Raise (KeyError "0")
  /\ send_weather city chat_id user_id w
     = (Ok tt,
        mkWorld (user_states w)
          (sent w ++ [SendMessage chat_id generic_error_message
                                  (Some retry_keyboard)])).
Proof.
  assert (Hgeo : fetch_geo_data city = Raise (KeyError "0")).
  { unfold fetch_geo_data. now rewrite Hstatus, Hbody. }
  split; [exact Hgeo|].
  apply (send_weather_handles _ _ _ _ _ (KeyError "0")).
  apply icon_request_raise. unfold icon_request. now rewrite Hgeo.
Qed.

(** X12: when the icon was read but the metrics cannot be built (a "main"
    or "wind" that is not an object, a pressure that is not a number), the
    photo is already out: [send_weather] sends the photo, then the generic
    failure message, and no state changes. *)
Theorem metrics_failure_after_photo (city : string) (chat_id user_id : Z)
    (w : World) (weather icon_code : Json) (e : Exn)
    (Hfetched : fetched city weather)
    (Hicon : icon_code_of weather = Ok icon_code)
    (Hmetrics : metrics_of weather = Raise e) :
  send_weather city chat_id user_id w
  = (Ok tt,
     mkWorld (user_states w)
       (sent w ++ [ SendPhoto chat_id (icon_url icon_code);
                    SendMessage chat_id generic_error_message
                                (Some retry_keyboard) ])).
Proof.
  pose proof (benign_failure_text _ _ (metrics_of_benign weather) Hmetrics)
    as Htext.
  destruct Hfetched as (geo_data & lat & lon & Hgeo & Hlat & Hlon & Hweather).
  assert (Hrun : send_weather_try city chat_id user_id w
                 = (Raise e,
                    mkWorld (user_states w)
                      (sent w ++ [SendPhoto chat_id (icon_url icon_code)]))).
  { unfold metrics_of in Hmetrics.
    split_raise Hmetrics
      ltac:(unfold send_weather_try; replay_raise; reflexivity). }
  rewrite (send_weather_handles _ _ _ _ _ _ Hrun).
  fold (failure_text e). rewrite Htext. cbn [user_states sent].
  now rewrite <- app_assoc.
Qed.

(** X13: when the metrics were sent but the sunrise cannot be formatted (a
    "sys" that is not an object, a sunrise or timezone that is not a number,
    a time out of range), [send_weather] has sent the photo and the metrics,
    then sends the generic failure message; every user finds the same state
    as before. *)
Theorem sunrise_failure_after_metrics (city : string) (chat_id user_id : Z)
    (w : World) (weather icon_code : Json) (metrics : string) (e : Exn)
    (Hfetched : fetched city weather)
    (Hicon : icon_code_of weather = Ok icon_code)
    (Hmetrics : metrics_of weather = Ok metrics)
    (Hsunrise : sun_time weather "sunrise" = Raise e) :
  exists w',
    send_weather city chat_id user_id w = (Ok tt, w')
    /\ sent w' = sent w ++ [ SendPhoto chat_id (icon_url icon_code);
                             SendMessage chat_id metrics None;
                             SendMessage chat_id generic_error_message
                                         (Some retry_keyboard) ]
    /\ forall u, state_of w' u = state_of w u.
Proof.
  pose proof (benign_failure_text _ _ (sun_time_benign weather "sunrise")
                Hsunrise) as Htext.
  destruct Hfetched as (geo_data & lat & lon & Hgeo & Hlat & Hlon & Hweather).
  assert (Hrun : exists w1,
            send_weather_try city chat_id user_id w = (Raise e, w1)
            /\ sent w1 = sent w ++ [ SendPhoto chat_id (icon_url icon_code);
                                     SendMessage chat_id metrics None ]
            /\ forall u, state_of w1 u = state_of w u).
  { unfold metrics_of in Hmetrics. split_steps Hmetrics.
    injection Hmetrics as <-.
    unfold sun_time in Hsunrise.
    split_raise Hsunrise
      ltac:(eexists; split;
            [unfold send_weather_try; replay_raise; reflexivity|];
            split;
            [rewrite ?touched_sent; cbn [sent]; now rewrite <- app_assoc
            |intros u; now rewrite ?touched_state_of]). }
  destruct Hrun as (w1 & Hrun & Hsent & Hstates).
  eexists. split; [exact (send_weather_handles _ _ _ _ _ _ Hrun)|].
  fold (failure_text e). rewrite Htext. cbn [user_states sent]. split.
  - now rewrite Hsent, <- app_assoc.
  - intros u. rewrite <- Hstates. now destruct w1.
Qed.

(** X14: when the sunrise was formatted but the sunset cannot be, the
    failure message follows the photo and the metrics, the mode and the
    stored sunset stay, but the stored sunrise is already the new one. *)
Theorem sunset_failure_keeps_new_sunrise (city : string) (chat_id user_id : Z)
    (w : World) (weather icon_code : Json) (metrics sunrise_text : string)
    (e : Exn)
    (Hfetched : fetched city weather)
    (Hicon : icon_code_of weather = Ok icon_code)
    (Hmetrics : metrics_of weather = Ok metrics)
    (Hsunrise : sun_time weather "sunrise" = Ok sunrise_text)
    (Hsunset : sun_time weather "sunset" = Raise e) :
  exists w',
    send_weather city chat_id user_id w = (Ok tt, w')
    /\ sent w' = sent w ++ [ SendPhoto chat_id (icon_url icon_code);
                             SendMessage chat_id metrics None;
                             SendMessage chat_id generic_error_message
                                         (Some retry_keyboard) ]
    /\ state_of w' user_id
       = mkBotState (mode (state_of w user_id)) sunrise_text
                    (sunset (state_of w user_id))
    /\ forall u, u <> user_id -> state_of w' u = state_of w u.
Proof.
  pose proof (benign_failure_text _ _ (sun_time_benign weather "sunset")
                Hsunset) as Htext.
  destruct Hfetched as (geo_data & lat & lon & Hgeo & Hlat & Hlon & Hweather).
  assert (Hrun : exists w1,
            send_weather_try city chat_id user_id w = (Raise e, w1)
            /\ sent w1 = sent w ++ [ SendPhoto chat_id (icon_url icon_code);
                                     SendMessage chat_id metrics None ]
            /\ state_of w1 user_id = with_sunrise sunrise_text (state_of w user_id)
            /\ forall u, u <> user_id -> state_of w1 u = state_of w u).
  { unfold metrics_of in Hmetrics. split_steps Hmetrics.
    injection Hmetrics as <-.
    unfold sun_time in Hsunrise, Hsunset. split_steps Hsunrise.
    split_raise Hsunset
      ltac:(eexists; split;
            [unfold send_weather_try; replay_raise; reflexivity|];
            cbn [sent user_states]; split;
            [rewrite touched_sent; cbn [sent]; now rewrite <- app_assoc|];
            split;
            [now rewrite (state_of_alter_eq _ _ _ _ _ (touched_lookup _ _))
            |intros u Hu; unfold state_of; cbn [user_states];
             rewrite lookup_alter_ne by congruence;
             exact (touched_state_of user_id _ u)]). }
  destruct Hrun as (w1 & Hrun & Hsent & Hstate & Hothers).
  eexists. split; [exact (send_weather_handles _ _ _ _ _ _ Hrun)|].
  fold (failure_text e). rewrite Htext. cbn [user_states sent]. split; [|split].
  - now rewrite Hsent, <- app_assoc.
  - unfold state_of in *. cbn [user_states]. now rewrite Hstate.
  - intros u Hu. rewrite <- (Hothers u Hu). now destruct w1.
Qed.

(** ** Where the weather workflow succeeds *)

(** The run of [send_weather] when every reading succeeds. *)
Lemma send_weather_run (city : string) (chat_id user_id : Z)
    (w : World) (weather icon_code : Json)
    (metrics sunrise_text sunset_text : string) :
  fetched city weather ->
  icon_code_of weather = Ok icon_code ->
  metrics_of weather = Ok metrics ->
  sun_time weather "sunrise" = Ok sunrise_text ->
  sun_time weather "sunset" = Ok sunset_text ->
  exists w',
    send_weather city chat_id user_id w = (Ok tt, w')
    /\ sent w' = sent w ++ [ SendPhoto chat_id (icon_url icon_code);
                             SendMessage chat_id metrics None;
                             SendMessage chat_id sun_prompt (Some sun_keyboard) ]
    /\ state_of w' user_id = mkBotState sun_question sunrise_text sunset_text
    /\ forall u, u <> user_id -> state_of w' u = state_of w u.
Proof.
  intros Hfetched Hicon Hmetrics Hsunrise Hsunset.
  destruct (send_weather_try_completes city chat_id user_id w _ _ _ _ _
              Hfetched Hicon Hmetrics Hsunrise Hsunset) as [w' Hok].
  destruct (send_weather_try_ok _ _ _ _ _ Hok)
    as (weather' & icon' & metrics' & sr & ss
        & Hfetched' & Hicon' & Hmetrics' & Hsr & Hss & Hsent & Hstate & Hothers).
  pose proof (fetched_unique _ _ _ Hfetched' Hfetched) as ->.
  assert (icon' = icon_code) as -> by congruence.
  assert (metrics' = metrics) as -> by congruence.
  assert (sr = sunrise_text) as -> by congruence.
  assert (ss = sunset_text) as -> by congruence.
  exists w'.
  split; [unfold send_weather, try_except; now rewrite Hok|].
  now repeat split.
Qed.

(** X15: a weather body that has a first "weather" entry without "icon"
    and none of "main", "wind", "sys" and "timezone" is rendered with the
    defaults: the icon URL has an empty code, temperature and wind read
    N/A, the pressure 0, and both times 00:00; the workflow succeeds. *)
Theorem bare_body_renders_defaults (city : string) (chat_id user_id : Z)
    (w : World) (fields first : list (string * Json)) (rest : list Json)
    (Hfetched : fetched city (JObj fields))
    (Hentry : Python.lookup_field "weather" fields
              = Some (JArr (JObj first :: rest)))
    (Hicon : Python.lookup_field "icon" first = None)
    (Hmain : Python.lookup_field "main" fields = None)
    (Hwind : Python.lookup_field "wind" fields = None)
    (Hsys : Python.lookup_field "sys" fields = None)
    (Htimezone : Python.lookup_field "timezone" fields = None) :
  exists w',
    send_weather city chat_id user_id w = (Ok tt, w')
    /\ sent w'
       = sent w
         ++ [ SendPhoto chat_id "http://openweathermap.org/img/wn/@4x.png";
              SendMessage chat_id
                ("🌡 Температура: N/A°C" +:+ newline
                   +:+ "📉 Давление: 0 мм рт.ст." +:+ newline
                   +:+ "🌪 Ветер: N/A м/с") None;
              SendMessage chat_id sun_prompt (Some sun_keyboard) ]
    /\ state_of w' user_id = mkBotState sun_question "00:00" "00:00".
Proof.
  destruct (send_weather_run city chat_id user_id w (JObj fields) (JStr "")
              ("🌡 Температура: N/A°C" +:+ newline
                 +:+ "📉 Давление: 0 мм рт.ст." +:+ newline
                 +:+ "🌪 Ветер: N/A м/с") "00:00" "00:00" Hfetched)
    as (w' & Hrun & Hsent & Hstate & _).
  - unfold icon_code_of, Python.getitem. rewrite Hentry. cbn [rbind Python.getitem0].
    unfold Python.get. now rewrite Hicon.
  - unfold metrics_of, Python.get. rewrite Hmain, Hwind. reflexivity.
  - unfold sun_time, Python.get. rewrite Hsys, Htimezone. reflexivity.
  - unfold sun_time, Python.get. rewrite Hsys, Htimezone. reflexivity.
  - exists w'. now repeat split.
Qed.

(** X16: for a user who is not already in [sun_question], the mode after
    [send_weather] is [sun_question] exactly when both requests and every
    reading of the body succeeded. *)
Theorem sun_question_reports_success (city : string) (chat_id user_id : Z)
    (w : World) (Hmode : mode_of w user_id <> sun_question) :
  mode_of (exec (send_weather city chat_id user_id) w) user_id = sun_question
  <-> exists weather icon_code metrics sunrise_text sunset_text,
        fetched city weather
        /\ icon_code_of weather = Ok icon_code
        /\ metrics_of weather = Ok metrics
        /\ sun_time weather "sunrise" = Ok sunrise_text
        /\ sun_time weather "sunset" = Ok sunset_text.
Proof.
  split.
  - unfold exec, send_weather, try_except.
    destruct (send_weather_try city chat_id user_id w) as [[[]|e] w1] eqn:Htry.
    + intros _.
      destruct (send_weather_try_ok _ _ _ _ _ Htry)
        as (weather & icon & metrics & sr & ss & H1 & H2 & H3 & H4 & H5 & _).
      now exists weather, icon, metrics, sr, ss.
    + destruct (send_weather_try_raise _ _ _ _ _ _ Htry) as [[Hmodes _] _].
      intros Hafter. exfalso. apply Hmode. rewrite <- Hmodes.
      exact Hafter.
  - intros (weather & icon & metrics & sr & ss & H1 & H2 & H3 & H4 & H5).
    destruct (send_weather_run city chat_id user_id w _ _ _ _ _ H1 H2 H3 H4 H5)
      as (w' & Hrun & _ & Hstate & _).
    unfold exec. rewrite Hrun. cbn [snd]. unfold mode_of. now rewrite Hstate.
Qed.

(** ** Times and pressures *)

(** X17: the printed time depends only on the local time of day: two sums
    of epoch seconds and offset that agree modulo one day print alike. *)
Theorem format_time_depends_on_time_of_day (e1 tz1 e2 tz2 : Z)
    (H1 : datetime_min <= e1 + tz1 <= datetime_max)
    (H2 : datetime_min <= e2 + tz2 <= datetime_max)
    (Hday : (e1 + tz1) mod 86400 = (e2 + tz2) mod 86400) :
  format_time (JInt e1) (JInt tz1) = format_time (JInt e2) (JInt tz2).
Proof.
  unfold format_time, utcfromtimestamp. cbn [Python.add Python.as_int rbind].
  replace ((datetime_min <=? e1 + tz1) && (e1 + tz1 <=? datetime_max)) with true
    by (symmetry; apply andb_true_iff; split; apply Z.leb_le; lia).
  replace ((datetime_min <=? e2 + tz2) && (e2 + tz2 <=? datetime_max)) with true
    by (symmetry; apply andb_true_iff; split; apply Z.leb_le; lia).
  cbn [rbind]. f_equal. unfold strftime_HM. rewrite Hday.
  replace ((e1 + tz1) mod 3600) with ((e2 + tz2) mod 3600);
    [reflexivity|].
  clear H1 H2. Z.div_mod_to_equations. lia.
Qed.

(** X18: below 2^51 in absolute value the pressure conversion cuts toward
    zero on both sides of it: the shown value is the sign of the pressure
    times the floor of three quarters of its absolute value, so the
    opposite pressure shows the opposite value, and for a pressure that is
    not positive the shown value is the ceiling of [p * 0.75], not its
    floor. *)
Theorem display_pressure_odd (p : Z) (Hp : - 2 ^ 51 < p < 2 ^ 51) :
  display_pressure (JInt p) = Ok (Z.sgn p * (3 * Z.abs p / 4))
  /\ display_pressure (JInt (- p)) = Ok (- (Z.sgn p * (3 * Z.abs p / 4)))
  /\ (p <= 0 ->
      display_pressure (JInt p) = Ok (Qceiling (inject_Z p * 0.75))).
Proof.
  rewrite !display_pressure_quot by lia.
  assert (Hcut : Z.quot (3 * p) 4 = Z.sgn p * (3 * Z.abs p / 4)).
  { clear Hp. destruct (Z.lt_trichotomy p 0) as [Hneg|[->|Hpos]].
    - rewrite Z.sgn_neg, Z.abs_neq by lia.
      Z.to_euclidean_division_equations. lia.
    - reflexivity.
    - rewrite Z.sgn_pos, Z.abs_eq by lia.
      Z.to_euclidean_division_equations. lia. }
  split; [now rewrite Hcut|]. split.
  - now rewrite Z.mul_opp_r, Z.quot_opp_l, Hcut by lia.
  - intros Hneg. f_equal. unfold Qceiling.
    assert (Hopp : (- (inject_Z p * 0.75) == inject_Z (- p) * 0.75)%Q)
      by (rewrite inject_Z_opp; ring).
    rewrite (Qfloor_comp _ _ Hopp), floor_three_quarters.
    clear Hp. Z.to_euclidean_division_equations. lia.
Qed.

(** ** The stored times *)

Lemma strftime_HM_clock (t : Z) : is_clock (strftime_HM t).
Proof.
  exists (t mod 86400 / 3600), (t mod 3600 / 60).
  split; [|split; [|reflexivity]]; Z.div_mod_to_equations; lia.
Qed.

Lemma format_time_clock (epoch timezone : Json) (text : string) :
  format_time epoch timezone = Ok text -> is_clock text.
Proof.
  unfold format_time. intros H. split_steps H. injection H as <-.
  apply strftime_HM_clock.
Qed.

Lemma sun_time_clock (weather : Json) (key text : string) :
  sun_time weather key = Ok text -> is_clock text.
Proof.
  unfold sun_time. intros H. split_steps H.
  now apply format_time_clock in H.
Qed.

Lemma times_refl (w : World) : times_step w w.
Proof. intros u. split; now left. Qed.

Lemma times_fields (w w' : World) :
  times_step w w' -> times_step w (mkWorld (user_states w') (sent w')).
Proof. now destruct w'. Qed.

Lemma times_emit (w : World) (m : gmap Z BotState) (out : list Outbound)
    (o : Outbound) :
  times_step w (mkWorld m out) -> times_step w (mkWorld m (out ++ [o])).
Proof. intros H u. exact (H u). Qed.

Lemma times_touched (w w' : World) (u : Z) :
  times_step w w' -> times_step w (touched u w').
Proof. intros H u'. rewrite touched_state_of. apply H. Qed.

Lemma times_alter (w : World) (m : gmap Z BotState) (out : list Outbound)
    (u : Z) (f : BotState -> BotState) :
  (forall s, (sunrise (f s) = sunrise s \/ is_clock (sunrise (f s)))
             /\ (sunset (f s) = sunset s \/ is_clock (sunset (f s)))) ->
  times_step w (mkWorld m out) ->
  times_step w (mkWorld (alter f u m) out).
Proof.
  intros Hf H u'. specialize (H u'). unfold state_of in *. cbn [user_states] in *.
  destruct (decide (u = u')) as [->|Hne]; [|now rewrite lookup_alter_ne].
  rewrite lookup_alter_eq. destruct (m !! u') as [s|]; [|exact H].
  simpl in *.
  destruct (Hf s) as [[Hr|Hr] [Hs|Hs]], H as [[Hr'|Hr'] [Hs'|Hs']];
    split; first [left; congruence | right; assumption | right; congruence].
Qed.

Ltac show_times :=
  repeat lazymatch goal with
         | |- times_step ?w ?w => apply times_refl
         | |- times_step _ (touched _ _) => apply times_touched
         | |- times_step _ (mkWorld (alter _ _ _) _) =>
             apply times_alter;
             [ intros ?; split;
               first [ left; reflexivity
                     | right; cbn [sunrise sunset with_sunrise with_sunset];
                       eapply format_time_clock; eassumption ]
             | ]
         | |- times_step _ (mkWorld _ (_ ++ [_])) => apply times_emit
         | |- times_step _ (mkWorld (user_states ?x) (sent ?x)) =>
             apply times_fields
         end.

(** Whatever the outcome of the [try] block, a stored time is as before or
    a clock text. *)
Lemma send_weather_try_times (city : string) (chat_id user_id : Z)
    (w w1 : World) (r : Result unit) :
  send_weather_try city chat_id user_id w = (r, w1) -> times_step w w1.
Proof.
  intros H. unfold send_weather_try in H.
  repeat run_step H ltac:(injection H as <- <-; show_times).
  injection H as <- <-. show_times.
Qed.

Lemma stored_states (w w' : World) :
  (forall u, state_of w' u = state_of w u) ->
  sun_times_stored w -> sun_times_stored w'.
Proof.
  intros Hsame Hw u. unfold mode_of. rewrite Hsame. apply Hw.
Qed.

(** A user who leaves [sun_question], or stays out of it, cannot break the
    invariant. *)
Lemma stored_but_one (w w' : World) (u : Z) :
  mode_of w' u <> sun_question ->
  (forall u', u' <> u -> state_of w' u' = state_of w u') ->
  sun_times_stored w -> sun_times_stored w'.
Proof.
  intros Hmode Hothers Hw u' Hu'.
  destruct (decide (u' = u)) as [->|Hne]; [now destruct Hmode|].
  unfold mode_of in Hu'. rewrite Hothers in * by exact Hne. now apply Hw.
Qed.

Lemma send_weather_keeps_times (city : string) (chat_id user_id : Z)
    (w : World) :
  sun_times_stored w ->
  sun_times_stored (exec (send_weather city chat_id user_id) w).
Proof.
  intros Hw. unfold exec, send_weather, try_except.
  destruct (send_weather_try city chat_id user_id w) as [[[]|e] w1] eqn:Htry;
    cbn [snd].
  - destruct (send_weather_try_ok _ _ _ _ _ Htry)
      as (weather & ? & ? & sr & ss & _ & _ & _ & Hsr & Hss & _ & Hstate & Hothers).
    intros u Hu. destruct (decide (u = user_id)) as [->|Hne].
    + rewrite Hstate. cbn [sunrise sunset].
      split; eapply sun_time_clock; eassumption.
    + unfold mode_of in Hu. rewrite Hothers in * by exact Hne. now apply Hw.
  - destruct (send_weather_try_raise _ _ _ _ _ _ Htry) as [[Hmodes _] _].
    pose proof (send_weather_try_times _ _ _ _ _ _ Htry) as Htimes.
    intros u Hu.
    assert (Hsame : forall x,
              state_of (snd (send_weather_except chat_id e w1)) x = state_of w1 x)
      by reflexivity.
    unfold mode_of in Hu. rewrite Hsame in *.
    fold (mode_of w1 u) in Hu. rewrite Hmodes in Hu.
    destruct (Hw u Hu) as [Hr Hs], (Htimes u) as [[Hr'|Hr'] [Hs'|Hs']];
      split; first [assumption | congruence].
Qed.

Lemma start_command_keeps_times (message : Message) (w : World) :
  sun_times_stored w -> sun_times_stored (exec (start_command message) w).
Proof.
  destruct (start_command_spec message w) as (w' & Hrun & _ & Hstate & Hothers).
  unfold exec. rewrite Hrun. cbn [snd].
  apply (stored_but_one w w' (msg_from_user message)); [|exact Hothers].
  unfold mode_of. now rewrite Hstate.
Qed.

Lemma text_message_keeps_times (message : Message) (w : World) :
  sun_times_stored w -> sun_times_stored (exec (text_message message) w).
Proof.
  intros Hw.
  assert (Htouched : sun_times_stored (touched (msg_from_user message) w))
    by (apply (stored_states w); [apply touched_state_of|exact Hw]).
  unfold exec, text_message. rewrite bind_get_user_state.
  destruct (mode (state_of w (msg_from_user message))); try exact Htouched.
  now apply send_weather_keeps_times.
Qed.

Lemma button_click_keeps_times (call : CallbackQuery) (w : World) :
  sun_times_stored w -> sun_times_stored (exec (button_click call) w).
Proof.
  intros Hw.
  assert (Htouched : sun_times_stored (touched (call_from_user call) w))
    by (apply (stored_states w); [apply touched_state_of|exact Hw]).
  unfold exec, button_click. rewrite bind_get_user_state.
  assert (Hleave : forall (m : Mode) (out : list Outbound),
            m <> sun_question ->
            sun_times_stored
              (mkWorld (alter (with_mode m) (call_from_user call)
                          (user_states (touched (call_from_user call) w))) out)).
  { intros m out Hm.
    apply (stored_but_one (touched (call_from_user call) w) _ (call_from_user call));
      [|intros u Hu|exact Htouched].
    - unfold mode_of.
      rewrite (state_of_alter_eq _ _ _ _ _ (touched_lookup _ _)). exact Hm.
    - rewrite (state_of_alter_ne _ _ _ _ _
                 (sent (touched (call_from_user call) w))) by congruence.
      now destruct (touched (call_from_user call) w). }
  destruct (String.eqb (call_data call) "start").
  - now apply start_command_keeps_times.
  - destruct (mode (state_of w (call_from_user call))); try exact Htouched.
    + destruct (String.eqb (call_data call) "other").
      * apply Hleave. discriminate.
      * now apply send_weather_keeps_times.
    + destruct (String.eqb (call_data call) "yes");
        apply Hleave; discriminate.
Qed.

Lemma reachable_stored (w : World) : reachable w -> sun_times_stored w.
Proof.
  induction 1 as [|message w _ IH|message w _ IH|call w _ IH].
  - intros u Hu. discriminate Hu.
  - now apply start_command_keeps_times.
  - now apply text_message_keeps_times.
  - now apply button_click_keeps_times.
Qed.

(** X19: if every user in [sun_question] has a clock text as sunrise and as
    sunset, that is still so after [send_weather] and after each of the
    three handlers, whatever their arguments and whatever the provider
    answers. *)
Theorem handlers_keep_sun_times (w : World) (Hstored : sun_times_stored w) :
  (forall city chat_id user_id,
      sun_times_stored (exec (send_weather city chat_id user_id) w))
  /\ (forall message, sun_times_stored (exec (start_command message) w))
  /\ (forall message, sun_times_stored (exec (text_message message) w))
  /\ (forall call, sun_times_stored (exec (button_click call) w)).
Proof.
  split; [|split; [|split]]; intros.
  - now apply send_weather_keeps_times.
  - now apply start_command_keeps_times.
  - now apply text_message_keeps_times.
  - now apply button_click_keeps_times.
Qed.

(** X20: after any sequence of handler calls from the empty store, a user
    in [sun_question] who presses "yes" is shown two clock texts, never
    the empty strings of a fresh state. *)
Theorem sun_answer_shows_clock_times (call : CallbackQuery) (w : World)
    (Hreach : reachable w)
    (Hmode : mode_of w (call_from_user call) = sun_question)
    (Hdata : call_data call = "yes") :
  exists sunrise_text sunset_text w',
    is_clock sunrise_text /\ is_clock sunset_text
    /\ button_click call w = (Ok tt, w')
    /\ sent w'
       = sent w
         ++ [ SendMessage (msg_chat (call_message call))
                ("🌅 Рассвет: " +:+ sunrise_text +:+ newline
                   +:+ "🌇 Закат: " +:+ sunset_text) None;
              SendMessage (msg_chat (call_message call))
                "Хотите сделать новый запрос?" (Some new_request_keyboard) ].
Proof.
  destruct (reachable_stored w Hreach _ Hmode) as [Hsunrise Hsunset].
  pose proof (mode_of_stored _ _ _ Hmode ltac:(discriminate)) as Hentry.
  exists (sunrise (state_of w (call_from_user call))),
         (sunset (state_of w (call_from_user call))).
  eexists. split; [exact Hsunrise|]. split; [exact Hsunset|].
  unfold button_click.
  rewrite bind_get_user_state, (touched_id _ _ _ Hentry), Hdata.
  unfold mode_of in Hmode. rewrite Hmode.
  split; [reflexivity|]. cbn [sent]. now rewrite <- app_assoc.
Qed.

(** X21: a "start" button resets the author of the message that carries
    it, not the presser: when the two differ the presser only gets an
    entry, and mode, sunrise and sunset are as before the press; when they
    are the same user, that user is in [city_choice]. The menu goes to the
    chat of the message either way. *)
Theorem start_button_resets_the_author (call : CallbackQuery) (w : World)
    (Hdata : call_data call = "start") :
  let presser := call_from_user call in
  let author := msg_from_user (call_message call) in
  exists w',
    button_click call w = (Ok tt, w')
    /\ sent w' = sent w ++ [SendMessage (msg_chat (call_message call))
                                        city_prompt (Some city_keyboard)]
    /\ state_of w' author
       = mkBotState city_choice (sunrise (state_of w author))
                    (sunset (state_of w author))
    /\ (presser <> author -> state_of w' presser = state_of w presser)
    /\ is_Some (user_states w' !! presser)
    /\ forall u, u <> author -> state_of w' u = state_of w u.
Proof.
  intros presser author. unfold button_click.
  rewrite bind_get_user_state, Hdata. cbn [String.eqb Ascii.eqb Bool.eqb].
  fold presser.
  destruct (start_command_spec (call_message call) (touched presser w))
    as (w' & Hrun & Hsent & Hstate & Hothers).
  fold author in Hstate, Hothers.
  exists w'. split; [exact Hrun|].
  split; [now rewrite Hsent, touched_sent|].
  split; [now rewrite Hstate, touched_state_of|].
  assert (Hrest : forall u, u <> author -> state_of w' u = state_of w u)
    by (intros u Hu; now rewrite Hothers, touched_state_of).
  split; [intros Hne; now apply Hrest|]. split; [|exact Hrest].
  unfold start_command in Hrun.
  rewrite bind_get_user_state, bind_update_state in Hrun.
  injection Hrun as <-. cbn [user_states].
  apply lookup_alter_is_Some.
  destruct (frame_touched (fun _ => True) 0 (touched presser w)
              (touched presser w) author (frame_refl _ _ _)) as (_ & Hkept & _).
  apply Hkept. rewrite touched_lookup. eauto.
Qed.

End Bot.

(** C3: at 1013 hPa the bot shows 759, and rounding 759.75 gives 760. *)
Lemma display_pressure_not_rounded :
  display_pressure (JInt 1013) <> Ok (py_round (inject_Z 1013 * 0.75)).
Proof. vm_compute. discriminate. Qed.

(** C4: a pressure below zero is cut toward zero, where the floor is one
    less: at -1 hPa the bot shows 0 and the floor of -0.75 is -1. A
    pressure with a fraction is multiplied in binary64, and the rounded
    product can reach the integer above the exact one: at
    1001.3333333333333 hPa the bot shows 751 and the floor of the exact
    product is 750. *)
Lemma display_pressure_not_floor :
  display_pressure (JInt (-1)) <> Ok (Qfloor (inject_Z (-1) * 0.75))
  /\ display_pressure (JInt (-1)) = Ok 0
  /\ Qfloor (inject_Z (-1) * 0.75) = -1
  /\ display_pressure (JFloat sample_pressure)
     <> Ok (Qfloor (exact_value sample_pressure * 0.75))
  /\ display_pressure (JFloat sample_pressure) = Ok 751
  /\ Qfloor (exact_value sample_pressure * 0.75) = 750.
Proof.
  split; [vm_compute; discriminate|]. split; [vm_compute; reflexivity|].
  split; [vm_compute; reflexivity|]. split; [vm_compute; discriminate|].
  split; vm_compute; reflexivity.
Qed.

Lemma display_pressure_is_floor_witness :
  (0 <= 1013 < 2 ^ 51)
  /\ display_pressure (JInt 1013) = Ok (Qfloor (inject_Z 1013 * 0.75)).
Proof.
  split; [lia|].
  apply (display_pressure_is_floor 1013). lia.
Defined.

Lemma display_pressure_drops_fraction_witness :
  (0 <= 1013 < 2 ^ 51)
  /\ exists shown : Z,
       display_pressure (JInt 1013) = Ok shown
       /\ (inject_Z shown <= inject_Z 1013 * 0.75 < inject_Z shown + 1)%Q.
Proof.
  split; [lia|].
  apply (display_pressure_drops_fraction 1013). lia.
Defined.

(** ** Worked examples *)

(** C1: user 1 is in [sun_question] and presses "start" on a message the
    bot (user 2) sent. The menu is sent to the chat, but the mode that is
    reset is the bot's own; user 1 stays in [sun_question]. *)
Lemma start_press_keeps_presser_mode :
  let w' := exec (button_click sample_key
                    (sample_provider sample_found sample_weather)
                    sample_repr sample_seconds (press "start")) asking_world in
  mode_of asking_world 1 = sun_question
  /\ mode_of w' 1 = sun_question
  /\ mode_of w' 2 = city_choice
  /\ sent w' = [SendMessage 1 city_prompt (Some city_keyboard)].
Proof. vm_compute. repeat split. Qed.

Lemma send_weather_failure_witness :
  exists w' rendered message,
    send_weather sample_key (sample_provider sample_empty sample_weather)
      sample_repr sample_seconds "Atlantis" 1 1 choosing_world = (Ok tt, w')
    /\ (forall u, mode_of w' u = mode_of choosing_world u)
    /\ sent w' = sent choosing_world ++ rendered
                   ++ [SendMessage 1 message (Some retry_keyboard)]
    /\ (message = generic_error_message \/ message = not_found_message)
    /\ List.filter is_failure_message
         (rendered ++ [SendMessage 1 message (Some retry_keyboard)])
       = [SendMessage 1 message (Some retry_keyboard)]
    /\ map callback_data (buttons_of retry_keyboard) = ["start"].
Proof.
  apply (send_weather_failure sample_key
           (sample_provider sample_empty sample_weather)
           sample_repr sample_seconds "Atlantis" 1 1 choosing_world
           choosing_world (ValueError not_found_text)).
  vm_compute. reflexivity.
Defined.

Lemma send_weather_success_witness :
  exists w',
    send_weather sample_key (sample_provider sample_found sample_weather)
      sample_repr sample_seconds "Moscow" 1 1 choosing_world = (Ok tt, w')
    /\ sent w'
       = sent choosing_world
         ++ [ SendPhoto 1 "http://openweathermap.org/img/wn/01d@4x.png";
              SendMessage 1
                ("🌡 Температура: ?°C" +:+ newline
                   +:+ "📉 Давление: 759 мм рт.ст." +:+ newline
                   +:+ "🌪 Ветер: ? м/с") None;
              SendMessage 1 sun_prompt (Some sun_keyboard) ]
    /\ map callback_data (buttons_of sun_keyboard) = ["yes"; "no"; "start"]
    /\ sunrise (state_of w' 1) = "05:30"
    /\ sunset (state_of w' 1) = "20:00"
    /\ mode_of w' 1 = sun_question
    /\ forall u, u <> 1 -> state_of w' u = state_of choosing_world u.
Proof.
  apply (send_weather_success sample_key
           (sample_provider sample_found sample_weather)
           sample_repr sample_seconds "Moscow" 1 1 choosing_world
           (json sample_weather) (JStr "01d")).
  - exists sample_place, (JFloat 55.75%float), (JFloat 37.625%float).
    repeat split.
  - reflexivity.
  - reflexivity.
  - reflexivity.
  - reflexivity.
Defined.

(** C6 on two answers of the geocoding endpoint: an empty array for
    "Atlantis", and a status 500. *)
Lemma errors_become_messages_witness :
  (fetch_geo_data sample_key (sample_provider sample_empty sample_weather)
     "Atlantis" = Raise (ValueError not_found_text)
   /\ exists w',
        send_weather sample_key (sample_provider sample_empty sample_weather)
          sample_repr sample_seconds "Atlantis" 1 1 choosing_world = (Ok tt, w')
        /\ sent w' = sent choosing_world
                       ++ [SendMessage 1 not_found_message (Some retry_keyboard)]
        /\ user_states w' = user_states choosing_world)
  /\ (fetch_geo_data sample_key
        (sample_provider sample_unavailable sample_weather) "Moscow"
      = Raise (ValueError "Ошибка получения геоданных")
      /\ exists w',
           send_weather sample_key
             (sample_provider sample_unavailable sample_weather)
             sample_repr sample_seconds "Moscow" 1 1 choosing_world = (Ok tt, w')
           /\ sent w' = sent choosing_world
                          ++ [SendMessage 1 generic_error_message
                                          (Some retry_keyboard)]
           /\ user_states w' = user_states choosing_world).
Proof.
  split.
  - pose proof (errors_become_messages sample_key
                  (sample_provider sample_empty sample_weather)
                  sample_repr sample_seconds "Atlantis" 1 1 choosing_world) as H.
    cbv zeta in H.
    destruct H as (Hempty & _ & _ & (w' & delta & Hrun & Hsent & Hfound & _ & Hstore) & _).
    assert (Hgeo : fetch_geo_data sample_key
                     (sample_provider sample_empty sample_weather) "Atlantis"
                   = Raise (ValueError not_found_text))
      by (apply Hempty; split; reflexivity).
    split; [exact Hgeo|]. exists w'. split; [exact Hrun|].
    split; [now rewrite Hsent, (proj1 Hfound Hgeo)|exact (Hstore _ Hgeo)].
  - pose proof (errors_become_messages sample_key
                  (sample_provider sample_unavailable sample_weather)
                  sample_repr sample_seconds "Moscow" 1 1 choosing_world) as H.
    cbv zeta in H.
    destruct H as (_ & _ & Hstatus & (w' & delta & Hrun & Hsent & _ & Hother & Hstore) & _).
    assert (Hgeo : fetch_geo_data sample_key
                     (sample_provider sample_unavailable sample_weather) "Moscow"
                   = Raise (ValueError "Ошибка получения геоданных"))
      by (apply Hstatus; vm_compute; discriminate).
    split; [exact Hgeo|]. exists w'. split; [exact Hrun|].
    split; [|exact (Hstore _ Hgeo)].
    rewrite Hsent, (Hother _ Hgeo); [reflexivity|discriminate].
Defined.

Lemma missing_weather_entry_fails_witness :
  send_weather sample_key (sample_provider sample_found sample_no_entry)
    sample_repr sample_seconds "Moscow" 1 1 choosing_world
  = (Ok tt,
     mkWorld (user_states choosing_world)
       (sent choosing_world
          ++ [SendMessage 1 generic_error_message (Some retry_keyboard)])).
Proof.
  apply (missing_weather_entry_fails sample_key
           (sample_provider sample_found sample_no_entry)
           sample_repr sample_seconds "Moscow" 1 1 choosing_world
           sample_place (JFloat 55.75%float) (JFloat 37.625%float)
           [ ("weather", JArr []); ("cod", JInt 200) ]);
    try (vm_compute; reflexivity).
  right. reflexivity.
Defined.

Lemma button_click_city_choice_witness :
  button_click sample_key (sample_provider sample_found sample_weather)
    sample_repr sample_seconds (press "yes") choosing_world
  = send_weather sample_key (sample_provider sample_found sample_weather)
      sample_repr sample_seconds "yes" 1 1 choosing_world.
Proof.
  apply (button_click_city_choice sample_key
           (sample_provider sample_found sample_weather)
           sample_repr sample_seconds (press "yes") choosing_world).
  - vm_compute. reflexivity.
  - discriminate.
  - discriminate.
Defined.

Lemma button_click_sun_question_witness :
  exists w',
    button_click sample_key (sample_provider sample_found sample_weather)
      sample_repr sample_seconds (press "yes") asking_world = (Ok tt, w')
    /\ sent w'
       = [ SendMessage 1 ("🌅 Рассвет: 05:30" +:+ newline +:+ "🌇 Закат: 20:00")
                       None;
           SendMessage 1 "Хотите сделать новый запрос?"
                       (Some new_request_keyboard) ]
    /\ mode_of w' 1 = city_choice.
Proof.
  destruct (button_click_sun_question sample_key
              (sample_provider sample_found sample_weather)
              sample_repr sample_seconds (press "yes") asking_world)
    as (w' & Hrun & Hsent & _ & _ & _ & Hmode).
  - vm_compute. reflexivity.
  - discriminate.
  - exists w'. split; [exact Hrun|]. split; [exact Hsent|exact Hmode].
Defined.

(** The scenario of a new user: /start, "other", a city typed in, "yes". *)
Lemma new_user_scenario :
  let provider := sample_provider sample_found sample_weather in
  let click := button_click sample_key provider sample_repr sample_seconds in
  let step1 := exec (start_command (mkMessage 1 1 "/start")) (mkWorld ∅ []) in
  let step2 := exec (click (press "other")) step1 in
  let step3 := exec (text_message sample_key provider sample_repr sample_seconds
                       sample_strip (mkMessage 1 1 "Moscow")) step2 in
  let step4 := exec (click (press "yes")) step3 in
  mode_of step1 1 = city_choice
  /\ mode_of step2 1 = other_city
  /\ state_of step3 1 = mkBotState sun_question "05:30" "20:00"
  /\ state_of step4 1 = mkBotState city_choice "05:30" "20:00"
  /\ map callback_data
       (concat (map (fun o => match o with
                              | SendMessage _ _ (Some keyboard) => buttons_of keyboard
                              | _ => []
                              end) (sent step4)))
     = [ "Moscow"; "Cape Town"; "New York"; "Shanghai"; "other"; "start";
         "yes"; "no"; "start"; "start" ]
  /\ length (sent step4) = 7%nat.
Proof. vm_compute. repeat split. Qed.

(** ** Worked examples for the rest of the handlers *)

Lemma text_message_ignored_witness :
  exists w',
    text_message sample_key (sample_provider sample_found sample_weather)
      sample_repr sample_seconds sample_strip (mkMessage 1 1 "Moscow")
      choosing_world = (Ok tt, w')
    /\ sent w' = sent choosing_world
    /\ forall u, state_of w' u = state_of choosing_world u.
Proof.
  apply (text_message_ignored sample_key
           (sample_provider sample_found sample_weather)
           sample_repr sample_seconds sample_strip (mkMessage 1 1 "Moscow")
           choosing_world).
  vm_compute. discriminate.
Defined.

Lemma text_message_other_city_witness :
  text_message sample_key (sample_provider sample_found sample_weather)
    sample_repr sample_seconds sample_strip (mkMessage 1 1 "Moscow")
    typing_world
  = send_weather sample_key (sample_provider sample_found sample_weather)
      sample_repr sample_seconds "Moscow" 1 1 typing_world
  /\ exists w',
       text_message sample_key (sample_provider sample_found sample_weather)
         sample_repr sample_seconds sample_strip (mkMessage 1 1 "Moscow")
         typing_world = (Ok tt, w')
       /\ (mode_of w' 1 = other_city \/ mode_of w' 1 = sun_question)
       /\ forall u, u <> 1 -> state_of w' u = state_of typing_world u.
Proof.
  apply (text_message_other_city sample_key
           (sample_provider sample_found sample_weather)
           sample_repr sample_seconds sample_strip (mkMessage 1 1 "Moscow")
           typing_world).
  vm_compute. reflexivity.
Defined.

Lemma button_click_other_witness :
  exists w',
    button_click sample_key (sample_provider sample_found sample_weather)
      sample_repr sample_seconds (press "other") choosing_world = (Ok tt, w')
    /\ sent w' = sent choosing_world
                   ++ [SendMessage 1 "📝 Введите название города:" None]
    /\ state_of w' 1 = mkBotState other_city "" ""
    /\ forall u, u <> 1 -> state_of w' u = state_of choosing_world u.
Proof.
  apply (button_click_other sample_key
           (sample_provider sample_found sample_weather)
           sample_repr sample_seconds (press "other") choosing_world).
  - vm_compute. reflexivity.
  - reflexivity.
Defined.

Lemma button_click_ignored_witness :
  exists w',
    button_click sample_key (sample_provider sample_found sample_weather)
      sample_repr sample_seconds (press "Moscow") typing_world = (Ok tt, w')
    /\ sent w' = sent typing_world
    /\ forall u, state_of w' u = state_of typing_world u.
Proof.
  apply (button_click_ignored sample_key
           (sample_provider sample_found sample_weather)
           sample_repr sample_seconds (press "Moscow") typing_world).
  - discriminate.
  - right. vm_compute. reflexivity.
Defined.

Lemma early_failure_sends_only_the_reply_witness :
  send_weather sample_key (sample_provider sample_empty sample_weather)
    sample_repr sample_seconds "Atlantis" 1 1 choosing_world
  = (Ok tt,
     mkWorld (user_states choosing_world)
       (sent choosing_world
          ++ [failure_reply 1 (ValueError not_found_text)])).
Proof.
  apply (early_failure_sends_only_the_reply sample_key
           (sample_provider sample_empty sample_weather)
           sample_repr sample_seconds "Atlantis" 1 1 choosing_world
           (ValueError not_found_text)).
  vm_compute. reflexivity.
Defined.

Lemma weather_status_failure_witness :
  fetch_weather_data sample_key
    (sample_provider sample_found sample_unavailable) sample_repr
    (JFloat 55.75%float) (JFloat 37.625%float)
  = Raise (ValueError "Ошибка получения погоды")
  /\ send_weather sample_key (sample_provider sample_found sample_unavailable)
       sample_repr sample_seconds "Moscow" 1 1 choosing_world
     = (Ok tt,
        mkWorld (user_states choosing_world)
          (sent choosing_world
             ++ [SendMessage 1 generic_error_message (Some retry_keyboard)])).
Proof.
  apply (weather_status_failure sample_key
           (sample_provider sample_found sample_unavailable)
           sample_repr sample_seconds "Moscow" 1 1 choosing_world
           sample_place (JFloat 55.75%float) (JFloat 37.625%float)).
  - vm_compute. reflexivity.
  - reflexivity.
  - reflexivity.
  - vm_compute. discriminate.
Defined.

Lemma geocode_object_body_witness :
  fetch_geo_data sample_key (sample_provider sample_geo_object sample_weather)
    "Moscow"
  = Raise (KeyError "0")
  /\ send_weather sample_key (sample_provider sample_geo_object sample_weather)
       sample_repr sample_seconds "Moscow" 1 1 choosing_world
     = (Ok tt,
        mkWorld (user_states choosing_world)
          (sent choosing_world
             ++ [SendMessage 1 generic_error_message (Some retry_keyboard)])).
Proof.
  apply (geocode_object_body sample_key
           (sample_provider sample_geo_object sample_weather)
           sample_repr sample_seconds "Moscow" 1 1 choosing_world
           ("cod", JInt 200) [ ("name", JStr "Moscow") ]).
  - vm_compute. reflexivity.
  - vm_compute. reflexivity.
Defined.

Lemma sample_fetched (weather : Response) :
  status weather = 200 ->
  fetched sample_key (sample_provider sample_found weather) sample_repr
    "Moscow" (json weather).
Proof.
  intros Hstatus.
  exists sample_place, (JFloat 55.75%float), (JFloat 37.625%float).
  split; [reflexivity|]. split; [reflexivity|]. split; [reflexivity|].
  unfold fetch_weather_data.
  change (sample_provider sample_found weather
            (weather_url sample_key sample_repr (JFloat 55.75%float)
               (JFloat 37.625%float))) with weather.
  now rewrite Hstatus.
Defined.

Lemma metrics_failure_after_photo_witness :
  send_weather sample_key (sample_provider sample_found sample_bad_main)
    sample_repr sample_seconds "Moscow" 1 1 choosing_world
  = (Ok tt,
     mkWorld (user_states choosing_world)
       (sent choosing_world
          ++ [ SendPhoto 1 "http://openweathermap.org/img/wn/01d@4x.png";
               SendMessage 1 generic_error_message (Some retry_keyboard) ])).
Proof.
  eapply (metrics_failure_after_photo sample_key
            (sample_provider sample_found sample_bad_main)
            sample_repr sample_seconds "Moscow" 1 1 choosing_world
            (json sample_bad_main) (JStr "01d")).
  - now apply sample_fetched.
  - reflexivity.
  - vm_compute. reflexivity.
Defined.

Lemma sunrise_failure_after_metrics_witness :
  exists w',
    send_weather sample_key (sample_provider sample_found sample_bad_sunrise)
      sample_repr sample_seconds "Moscow" 1 1 asking_world = (Ok tt, w')
    /\ sent w'
       = sent asking_world
         ++ [ SendPhoto 1 "http://openweathermap.org/img/wn/01d@4x.png";
              SendMessage 1
                ("🌡 Температура: N/A°C" +:+ newline
                   +:+ "📉 Давление: 759 мм рт.ст." +:+ newline
                   +:+ "🌪 Ветер: N/A м/с") None;
              SendMessage 1 generic_error_message (Some retry_keyboard) ]
    /\ forall u, state_of w' u = state_of asking_world u.
Proof.
  eapply (sunrise_failure_after_metrics sample_key
            (sample_provider sample_found sample_bad_sunrise)
            sample_repr sample_seconds "Moscow" 1 1 asking_world
            (json sample_bad_sunrise) (JStr "01d")).
  - now apply sample_fetched.
  - reflexivity.
  - reflexivity.
  - vm_compute. reflexivity.
Defined.

Lemma sunset_failure_keeps_new_sunrise_witness :
  exists w',
    send_weather sample_key (sample_provider sample_found sample_bad_sunset)
      sample_repr sample_seconds "Moscow" 1 1 typing_world = (Ok tt, w')
    /\ sent w'
       = sent typing_world
         ++ [ SendPhoto 1 "http://openweathermap.org/img/wn/01d@4x.png";
              SendMessage 1
                ("🌡 Температура: N/A°C" +:+ newline
                   +:+ "📉 Давление: 759 мм рт.ст." +:+ newline
                   +:+ "🌪 Ветер: N/A м/с") None;
              SendMessage 1 generic_error_message (Some retry_keyboard) ]
    /\ state_of w' 1 = mkBotState other_city "05:30" ""
    /\ forall u, u <> 1 -> state_of w' u = state_of typing_world u.
Proof.
  eapply (sunset_failure_keeps_new_sunrise sample_key
            (sample_provider sample_found sample_bad_sunset)
            sample_repr sample_seconds "Moscow" 1 1 typing_world
            (json sample_bad_sunset) (JStr "01d")).
  - now apply sample_fetched.
  - reflexivity.
  - reflexivity.
  - reflexivity.
  - vm_compute. reflexivity.
Defined.

Lemma bare_body_renders_defaults_witness :
  exists w',
    send_weather sample_key (sample_provider sample_found sample_bare)
      sample_repr sample_seconds "Moscow" 1 1 choosing_world = (Ok tt, w')
    /\ sent w'
       = sent choosing_world
         ++ [ SendPhoto 1 "http://openweathermap.org/img/wn/@4x.png";
              SendMessage 1
                ("🌡 Температура: N/A°C" +:+ newline
                   +:+ "📉 Давление: 0 мм рт.ст." +:+ newline
                   +:+ "🌪 Ветер: N/A м/с") None;
              SendMessage 1 sun_prompt (Some sun_keyboard) ]
    /\ state_of w' 1 = mkBotState sun_question "00:00" "00:00".
Proof.
  apply (bare_body_renders_defaults sample_key
           (sample_provider sample_found sample_bare)
           sample_repr sample_seconds "Moscow" 1 1 choosing_world
           [ ("weather", JArr [ JObj [] ]) ] [] []);
    try reflexivity.
  now apply (sample_fetched sample_bare).
Defined.

Lemma sun_question_reports_success_witness :
  mode_of
    (exec (send_weather sample_key (sample_provider sample_found sample_weather)
             sample_repr sample_seconds "Moscow" 1 1) choosing_world) 1
  = sun_question
  <-> exists weather icon_code metrics sunrise_text sunset_text,
        fetched sample_key (sample_provider sample_found sample_weather)
          sample_repr "Moscow" weather
        /\ icon_code_of weather = Ok icon_code
        /\ metrics_of sample_repr weather = Ok metrics
        /\ sun_time sample_seconds weather "sunrise" = Ok sunrise_text
        /\ sun_time sample_seconds weather "sunset" = Ok sunset_text.
Proof.
  apply (sun_question_reports_success sample_key
           (sample_provider sample_found sample_weather)
           sample_repr sample_seconds "Moscow" 1 1 choosing_world).
  vm_compute. discriminate.
Defined.

Lemma format_time_depends_on_time_of_day_witness :
  format_time sample_seconds (JInt 1717209000) (JInt 10800)
  = format_time sample_seconds (JInt 19800) (JInt 0).
Proof.
  apply (format_time_depends_on_time_of_day sample_seconds
           1717209000 10800 19800 0).
  - unfold datetime_min, datetime_max. lia.
  - unfold datetime_min, datetime_max. lia.
  - reflexivity.
Defined.

Lemma display_pressure_odd_witness :
  display_pressure (JInt (- 1013))
  = Ok (Z.sgn (- 1013) * (3 * Z.abs (- 1013) / 4))
  /\ display_pressure (JInt (- - 1013))
     = Ok (- (Z.sgn (- 1013) * (3 * Z.abs (- 1013) / 4)))
  /\ (- 1013 <= 0 ->
      display_pressure (JInt (- 1013))
      = Ok (Qceiling (inject_Z (- 1013) * 0.75))).
Proof.
  apply (display_pressure_odd (- 1013)). lia.
Defined.

Lemma asking_world_stored : sun_times_stored asking_world.
Proof.
  intros u Hu. destruct (decide (u = 1)) as [->|Hne].
  - split; [exists 5, 30|exists 20, 0]; repeat split; lia.
  - unfold mode_of, state_of, asking_world in Hu. cbn [user_states] in Hu.
    rewrite lookup_singleton_ne in Hu by congruence. discriminate Hu.
Defined.

Lemma handlers_keep_sun_times_witness :
  (forall city chat_id user_id,
      sun_times_stored
        (exec (send_weather sample_key
                 (sample_provider sample_found sample_weather)
                 sample_repr sample_seconds city chat_id user_id) asking_world))
  /\ (forall message,
         sun_times_stored (exec (start_command message) asking_world))
  /\ (forall message,
         sun_times_stored
           (exec (text_message sample_key
                    (sample_provider sample_found sample_weather)
                    sample_repr sample_seconds sample_strip message)
              asking_world))
  /\ (forall call,
         sun_times_stored
           (exec (button_click sample_key
                    (sample_provider sample_found sample_weather)
                    sample_repr sample_seconds call) asking_world)).
Proof.
  apply (handlers_keep_sun_times sample_key
           (sample_provider sample_found sample_weather)
           sample_repr sample_seconds sample_strip asking_world).
  exact asking_world_stored.
Defined.

Lemma sun_answer_shows_clock_times_witness :
  exists sunrise_text sunset_text w',
    is_clock sunrise_text /\ is_clock sunset_text
    /\ button_click sample_key (sample_provider sample_found sample_weather)
         sample_repr sample_seconds (press "yes")
         (exec (text_message sample_key
                  (sample_provider sample_found sample_weather)
                  sample_repr sample_seconds sample_strip
                  (mkMessage 1 1 "Moscow"))
            (exec (button_click sample_key
                     (sample_provider sample_found sample_weather)
                     sample_repr sample_seconds (press "other"))
               (exec (start_command (mkMessage 1 1 "/start"))
                  (mkWorld ∅ []))))
       = (Ok tt, w')
    /\ length (sent w') = 7%nat.
Proof.
  destruct (sun_answer_shows_clock_times sample_key
              (sample_provider sample_found sample_weather)
              sample_repr sample_seconds sample_strip (press "yes")
              (exec (text_message sample_key
                       (sample_provider sample_found sample_weather)
                       sample_repr sample_seconds sample_strip
                       (mkMessage 1 1 "Moscow"))
                 (exec (button_click sample_key
                          (sample_provider sample_found sample_weather)
                          sample_repr sample_seconds (press "other"))
                    (exec (start_command (mkMessage 1 1 "/start"))
                       (mkWorld ∅ [])))))
    as (sunrise_text & sunset_text & w' & Hsunrise & Hsunset & Hrun & Hsent).
  - apply reach_text, reach_click, reach_start, reach_init.
  - vm_compute. reflexivity.
  - reflexivity.
  - exists sunrise_text, sunset_text, w'.
    split; [exact Hsunrise|]. split; [exact Hsunset|]. split; [exact Hrun|].
    rewrite Hsent, length_app. vm_compute. reflexivity.
Defined.

Lemma start_button_resets_the_author_witness :
  exists w',
    button_click sample_key (sample_provider sample_found sample_weather)
      sample_repr sample_seconds (press "start") asking_world = (Ok tt, w')
    /\ sent w' = sent asking_world
                   ++ [SendMessage 1 city_prompt (Some city_keyboard)]
    /\ state_of w' 2 = mkBotState city_choice "" ""
    /\ (1 <> 2 -> state_of w' 1 = state_of asking_world 1)
    /\ is_Some (user_states w' !! 1)
    /\ forall u, u <> 2 -> state_of w' u = state_of asking_world u.
Proof.
  apply (start_button_resets_the_author sample_key
           (sample_provider sample_found sample_weather)
           sample_repr sample_seconds (press "start") asking_world).
  reflexivity.
Defined.
